(** * mongo-hhvm-driver: the BSON decoder and the MongoCollection write methods

    A shallow embedding of [src/bson_decode.cpp] and [src/MongoCollection.cpp].

    The two files sit between three collaborators whose code is not part of
    the repository: the HHVM runtime ([Variant], [Array], [String]), libbson
    (iterators, readers, object ids) and libmongoc (collections, write
    concerns).  The runtime values are modelled concretely, as far as the
    two files use them; what libbson and libmongoc answer during a call is
    an input of the model. *)

From Stdlib Require Import ZArith List String Ascii Bool Lia.
Import ListNotations.
Open Scope string_scope.
Open Scope Z_scope.
Set Warnings "-register-all".

(** ** HHVM runtime values *)

(** A C [double], kept as its IEEE-754 binary64 bit pattern. *)
Record double : Type := Double { double_bits : Z }.

(** [Variant]: the dynamically typed value of the runtime.  An object is
    represented by the class it was instantiated from and the parameters its
    constructor was invoked with, which is all [create_object] determines.
    An [Array] is an insertion-ordered mapping; an integer key is written as
    its decimal string, which is how the runtime identifies the two. *)
Inductive Variant : Type :=
| VNull
| VBool (b : bool)
| VInt (n : Z)
| VDouble (d : double)
| VString (s : string)
| VArray (a : list (string * Variant))
| VObject (cls : string) (params : list (string * Variant)).

Definition Array : Type := list (string * Variant).

Module Arr.

(** [Array()] *)
Definition new : Array := [].

(** [Array::empty] *)
Definition empty (a : Array) : bool :=
  match a with [] => true | _ :: _ => false end.

Definition has_key (key : string) (kv : string * Variant) : bool :=
  String.eqb (fst kv) key.

(** [Array::exists] *)
Definition exists_ (a : Array) (key : string) : bool :=
  existsb (has_key key) a.

(** [Array::add]: a new element at the end.  The runtime requires that the
    key is not present yet and does not look for it. *)
Definition add (a : Array) (key : string) (v : Variant) : Array :=
  (a ++ [(key, v)])%list.

(** [Array::operator[]] as an rvalue: the element, or null when the key is
    absent. *)
Definition rvalAt (a : Array) (key : string) : Variant :=
  match find (has_key key) a with
  | Some (_, v) => v
  | None => VNull
  end.

(** Number of elements stored under [key]. *)
Definition count (a : Array) (key : string) : nat :=
  List.length (filter (has_key key) a).

(** [make_packed_array] of one and of two values *)
Definition packed1 (x : Variant) : Array := [("0", x)].
Definition packed2 (x y : Variant) : Array := [("0", x); ("1", y)].

End Arr.

(** [Variant(const Array&)]: an [Array] stored as a value.  The null array,
    which is what [Array()] is until an element is added to it, becomes
    null. *)
Definition Variant_of_Array (a : Array) : Variant :=
  match a with
  | [] => VNull
  | _ :: _ => VArray a
  end.

(** [Variant::toBoolean] *)
Definition toBoolean (v : Variant) : bool :=
  match v with
  | VNull => false
  | VBool b => b
  | VInt n => negb (n =? 0)
  | VDouble d => negb (double_bits d mod 2 ^ 63 =? 0)
  | VString s => negb (String.eqb s "" || String.eqb s "0")
  | VArray a => negb (Arr.empty a)
  | VObject _ _ => true
  end.

(** [create_object]: load the class, instantiate it and invoke its
    constructor on [params]. *)
Definition create_object (className : string) (params : Array) : Variant :=
  VObject className params.

Definition s_MongoId := "MongoId".
Definition s_MongoBinData := "MongoBinData".
Definition s_MongoDate := "MongoDate".
Definition s_MongoRegex := "MongoRegex".
Definition s_MongoDBRef := "MongoDBRef".
Definition s_MongoCode := "MongoCode".
Definition s_MongoTimestamp := "MongoTimestamp".
Definition s_MongoMaxKey := "MongoMaxKey".
Definition s_MongoMinKey := "MongoMinKey".

(** Exceptions raised through [mongoThrow]. *)
Inductive exn : Type :=
| MongoException (msg : string)
| MongoCursorException (msg : string).

Inductive result (A : Type) : Type :=
| Return (a : A)
| Throw (e : exn).
Arguments Return {A} a.
Arguments Throw {A} e.

(** ** libbson values *)

(** [bson_oid_t]: the twelve bytes of an object id. *)
Record bson_oid_t : Type := Oid { oid_bytes : list ascii }.

Definition hex_digit (n : N) : ascii :=
  ascii_of_N (if (n <? 10)%N then 48 + n else 87 + n)%N.

Fixpoint hex_of_bytes (bs : list ascii) : string :=
  match bs with
  | [] => EmptyString
  | b :: rest =>
      String (hex_digit (N_of_ascii b / 16))
        (String (hex_digit (N_of_ascii b mod 16)) (hex_of_bytes rest))
  end.

(** [bson_oid_to_string]: two lower-case hexadecimal digits per byte. *)
Definition bson_oid_to_string (oid : bson_oid_t) : string :=
  hex_of_bytes (oid_bytes oid).

(** A BSON document as libbson's iterator presents it.  [bson_t] carries the
    length [len] of the document; [bson_iter_t] is an iterator position, that
    is, what [bson_iter_next] yields from there on: the next element, the
    regular end of the document, or a failure that sets [err_off].  An
    embedded document or array is given as [Some] when [bson_init_static]
    accepts its bytes, which [bson_iter_visit_all] tests before it calls the
    visitor. *)
Inductive bson_t : Type :=
| Bson (len : Z) (body : bson_iter_t)
with bson_iter_t : Type :=
| IterEnd
| IterCorrupt
| IterElem (key : string) (value : bson_value) (next : bson_iter_t)
with bson_value : Type :=
| BDouble (v_double : double)
| BUtf8 (v_utf8 : string)
| BDocument (v_document : option bson_t)
| BArray (v_array : option bson_t)
| BBinary (v_subtype : Z) (v_binary : string)
| BUndefined
| BOid (v_oid : bson_oid_t)
| BBool (v_bool : bool)
| BDateTime (msec_since_epoch : Z)
| BNull
| BRegex (regex options : string)
| BDbPointer (v_collection : string) (v_oid : bson_oid_t)
| BCode (v_code : string)
| BSymbol (v_symbol : string)
| BCodeWScope (v_code : string) (v_scope : option bson_t)
| BInt32 (v_int32 : Z)
| BTimestamp (timestamp increment : Z)
| BInt64 (v_int64 : Z)
| BMaxKey
| BMinKey.

(** [bson_iter_init]: fails on a null document and on one shorter than the
    five bytes of the empty document. *)
Definition bson_iter_init (bson : option bson_t) : option bson_iter_t :=
  match bson with
  | None => None
  | Some (Bson len body) => if len <? 5 then None else Some body
  end.

(** ** bson_decode.cpp: the visitors *)

(** A visitor returns the "stop the traversal" signal and the output array
    as it has left it.  The visitors for scalar elements never read [iter],
    which is left out of their model. *)
Definition visit_result : Type := (bool * Array)%type.

(** The value of a [uint32_t] seen as an [int64_t]. *)
Definition uint32_to_int64 (x : Z) : Z := x mod 2 ^ 32.

Definition cbson_loads_visit_double (key : string) (v_double : double)
    (output : Array) : visit_result :=
  (false, Arr.add output key (VDouble v_double)).

(** A [String] built from a [const char *] ends at the first NUL. *)
Fixpoint c_str (s : string) : string :=
  match s with
  | EmptyString => EmptyString
  | String c rest => if Ascii.eqb c zero then EmptyString else String c (c_str rest)
  end.

(** The length [v_utf8_len] is not used: the value is read as a C string. *)
Definition cbson_loads_visit_utf8 (key : string) (v_utf8 : string)
    (output : Array) : visit_result :=
  (false, Arr.add output key (VString (c_str v_utf8))).

Definition cbson_loads_visit_binary (key : string) (v_subtype : Z)
    (v_binary : string) (output : Array) : visit_result :=
  let data :=
    create_object s_MongoBinData
      (Arr.packed2 (VString v_binary) (VInt v_subtype)) in
  (false, Arr.add output key data).

Definition cbson_loads_visit_oid (key : string) (oid : bson_oid_t)
    (output : Array) : visit_result :=
  let id := bson_oid_to_string oid in
  let data := create_object s_MongoId (Arr.packed1 (VString id)) in
  (false, Arr.add output key data).

Definition cbson_loads_visit_bool (key : string) (v_bool : bool)
    (output : Array) : visit_result :=
  (false, Arr.add output key (VBool v_bool)).

(** [/] and [%] of C truncate towards zero: [Z.quot] and [Z.rem]. *)
Definition cbson_loads_visit_date_time (key : string) (msec_since_epoch : Z)
    (output : Array) : visit_result :=
  let msec := msec_since_epoch in
  let data :=
    create_object s_MongoDate
      (Arr.packed2 (VInt (Z.quot msec 1000))
                   (VInt (Z.rem msec 1000 * 1000))) in
  (false, Arr.add output key data).

Definition cbson_loads_visit_null (key : string) (output : Array)
    : visit_result :=
  (false, Arr.add output key VNull).

Definition cbson_loads_visit_regex (key : string) (regex options : string)
    (output : Array) : visit_result :=
  let regex_string := ("/" ++ regex ++ "/" ++ options)%string in
  let data := create_object s_MongoRegex (Arr.packed1 (VString regex_string)) in
  (false, Arr.add output key data).

Definition cbson_loads_visit_dbpointer (key : string) (v_collection : string)
    (v_oid : bson_oid_t) (output : Array) : visit_result :=
  let id := bson_oid_to_string v_oid in
  let data :=
    create_object s_MongoDBRef
      (Arr.packed2 (VString v_collection) (VString id)) in
  (false, Arr.add output key data).

Definition cbson_loads_visit_code (key : string) (v_code : string)
    (output : Array) : visit_result :=
  let data := create_object s_MongoCode (Arr.packed1 (VString v_code)) in
  (false, Arr.add output key data).

Definition cbson_loads_visit_int32 (key : string) (v_int32 : Z)
    (output : Array) : visit_result :=
  (false, Arr.add output key (VInt v_int32)).

Definition cbson_loads_visit_timestamp (key : string) (timestamp increment : Z)
    (output : Array) : visit_result :=
  let data :=
    create_object s_MongoTimestamp
      (Arr.packed2 (VInt (uint32_to_int64 timestamp))
                   (VInt (uint32_to_int64 increment))) in
  (false, Arr.add output key data).

Definition cbson_loads_visit_int64 (key : string) (v_int64 : Z)
    (output : Array) : visit_result :=
  (false, Arr.add output key (VInt v_int64)).

Definition cbson_loads_visit_maxkey (key : string) (output : Array)
    : visit_result :=
  let data := create_object s_MongoMaxKey Arr.new in
  (false, Arr.add output key data).

Definition cbson_loads_visit_minkey (key : string) (output : Array)
    : visit_result :=
  let data := create_object s_MongoMinKey Arr.new in
  (false, Arr.add output key data).

(** ** bson_decode.cpp: the traversal *)

Section Decoder.

(** [bson_utf8_validate utf8 allow_null] of libbson. *)
Variable bson_utf8_validate : string -> bool -> bool.

(** The test [bson_iter_visit_all] makes on every key. *)
Definition key_rejected (key : string) : bool :=
  negb (String.eqb key "") && negb (bson_utf8_validate key false).

(** [bson_iter_visit_all] with the table [gLoadsVisitors]: the loop over
    [bson_iter_next], the dispatch on the element type and, for an
    embedded document or array, the body of [cbson_loads_visit_document]
    and [cbson_loads_visit_array] (restated under their names below).  An
    entry of the table that is NULL (before, after, corrupt, undefined,
    symbol, code with scope) visits nothing.  The result is [true] when the
    traversal was stopped early. *)
Fixpoint bson_iter_visit_all (iter : bson_iter_t) (data : Array)
    {struct iter} : visit_result :=
  match iter with
  | IterEnd => (false, data)
  | IterCorrupt => (false, data)
  | IterElem key value next =>
      if key_rejected key then (true, data)
      else
        let '(stop, data') :=
          match value with
          | BDouble v => cbson_loads_visit_double key v data
          | BUtf8 v =>
              if bson_utf8_validate v true
              then cbson_loads_visit_utf8 key v data
              else (true, data)
          | BDocument (Some (Bson len child))
          | BArray (Some (Bson len child)) =>
              if len <? 5 then (false, data)
              else
                let '(stopped, obj) := bson_iter_visit_all child Arr.new in
                if negb stopped
                then (false, Arr.add data key (Variant_of_Array obj))
                else (false, data)
          | BDocument None | BArray None => (false, data)
          | BBinary t v => cbson_loads_visit_binary key t v data
          | BUndefined => (false, data)
          | BOid v => cbson_loads_visit_oid key v data
          | BBool v => cbson_loads_visit_bool key v data
          | BDateTime v => cbson_loads_visit_date_time key v data
          | BNull => cbson_loads_visit_null key data
          | BRegex r o => cbson_loads_visit_regex key r o data
          | BDbPointer c v => cbson_loads_visit_dbpointer key c v data
          | BCode v => cbson_loads_visit_code key v data
          | BSymbol _ => (false, data)
          | BCodeWScope _ _ => (false, data)
          | BInt32 v => cbson_loads_visit_int32 key v data
          | BTimestamp t i => cbson_loads_visit_timestamp key t i data
          | BInt64 v => cbson_loads_visit_int64 key v data
          | BMaxKey => cbson_loads_visit_maxkey key data
          | BMinKey => cbson_loads_visit_minkey key data
          end in
        if stop then (true, data') else bson_iter_visit_all next data'
  end.

(** [cbson_loads_visit_document].  The three pointers are tested for NULL
    first ([bson_return_val_if_fail (..., true)]). *)
Definition cbson_loads_visit_document (iter : option bson_iter_t)
    (key : option string) (v_document : option bson_t) (data : Array)
    : visit_result :=
  match iter, key, v_document with
  | Some _, Some key, Some _ =>
      match bson_iter_init v_document with
      | Some child =>
          let '(stopped, obj) := bson_iter_visit_all child Arr.new in
          if negb stopped
                then (false, Arr.add data key (Variant_of_Array obj))
          else (false, data)
      | None => (false, data)
      end
  | _, _, _ => (true, data)
  end.

(** [cbson_loads_visit_array] *)
Definition cbson_loads_visit_array (iter : option bson_iter_t)
    (key : option string) (v_array : option bson_t) (data : Array)
    : visit_result :=
  match iter, key, v_array with
  | Some _, Some key, Some _ =>
      match bson_iter_init v_array with
      | Some child =>
          let '(stopped, obj) := bson_iter_visit_all child Arr.new in
          if negb stopped
                then (false, Arr.add data key (Variant_of_Array obj))
          else (false, data)
      | None => (false, data)
      end
  | _, _, _ => (true, data)
  end.

(** The dispatch of [bson_iter_visit_all] on one element, with the entries
    of [gLoadsVisitors] under their names. *)
Definition gLoadsVisitors (iter : bson_iter_t) (key : string)
    (value : bson_value) (data : Array) : visit_result :=
  match value with
  | BDouble v => cbson_loads_visit_double key v data
  | BUtf8 v =>
      if bson_utf8_validate v true
      then cbson_loads_visit_utf8 key v data
      else (true, data)
  | BDocument (Some b) =>
      cbson_loads_visit_document (Some iter) (Some key) (Some b) data
  | BDocument None => (false, data)
  | BArray (Some b) =>
      cbson_loads_visit_array (Some iter) (Some key) (Some b) data
  | BArray None => (false, data)
  | BBinary t v => cbson_loads_visit_binary key t v data
  | BUndefined => (false, data)
  | BOid v => cbson_loads_visit_oid key v data
  | BBool v => cbson_loads_visit_bool key v data
  | BDateTime v => cbson_loads_visit_date_time key v data
  | BNull => cbson_loads_visit_null key data
  | BRegex r o => cbson_loads_visit_regex key r o data
  | BDbPointer c v => cbson_loads_visit_dbpointer key c v data
  | BCode v => cbson_loads_visit_code key v data
  | BSymbol _ => (false, data)
  | BCodeWScope _ _ => (false, data)
  | BInt32 v => cbson_loads_visit_int32 key v data
  | BTimestamp t i => cbson_loads_visit_timestamp key t i data
  | BInt64 v => cbson_loads_visit_int64 key v data
  | BMaxKey => cbson_loads_visit_maxkey key data
  | BMinKey => cbson_loads_visit_minkey key data
  end.

(** [cbson_loads]: the result of the traversal is not looked at. *)
Definition cbson_loads (bson : option bson_t) : result Array :=
  let ret := Arr.new in
  match bson_iter_init bson with
  | None => Throw (MongoException "Failed to initialize BSON iterator")
  | Some iter => Return (snd (bson_iter_visit_all iter ret))
  end.

End Decoder.

(** ** bson_decode.cpp: decoding a string *)

Definition INT32_MAX : Z := 2 ^ 31 - 1.

(** A 32-bit pattern read as an [int32_t]. *)
Definition to_int32 (u : Z) : Z :=
  let m := u mod 2 ^ 32 in
  if m <? 2 ^ 31 then m else m - 2 ^ 32.

(** The byte at index [n]; 0 past the end, where the code never reads. *)
Definition byte_at (s : string) (n : nat) : Z :=
  match String.get n s with
  | Some c => Z.of_N (N_of_ascii c)
  | None => 0
  end.

(** The little-endian 32-bit word the buffer starts with. *)
Definition le_uint32 (s : string) : Z :=
  byte_at s 0 + 2 ^ 8 * byte_at s 1 + 2 ^ 16 * byte_at s 2
  + 2 ^ 24 * byte_at s 3.

Definition size (s : string) : Z := Z.of_nat (String.length s).

Section Reader.

Variable bson_utf8_validate : string -> bool -> bool.

(** What libbson's iterator yields over the bytes of a framed document. *)
Variable bson_elements : string -> bson_iter_t.

(** [bson_init_static data length]: the length is at least 5 and at most
    [INT_MAX], it is the length the first four bytes declare, and the last
    byte is NUL. *)
Definition bson_init_static (data : string) (length : Z) : option bson_t :=
  if (length <? 5) || (INT32_MAX <? length) then None
  else if negb (le_uint32 data =? length) then None
  else if negb (byte_at data (Z.to_nat (length - 1)) =? 0) then None
  else Some (Bson length (bson_elements (substring 0 (Z.to_nat length) data))).

(** [bson_reader_read] on a reader made by [bson_reader_new_from_data], at
    offset 0: the next document, or NULL.  ([reached_eof], which the caller
    does not read, is left out.) *)
Definition bson_reader_read (data : string) : option bson_t :=
  let length := size data in
  let offset := 0 in
  if offset + 4 <? length then
    let blen := to_int32 (le_uint32 data) in
    if blen <? 5 then None
    else if to_int32 (length - offset) <? blen then None
    else bson_init_static data blen
  else None.

(** [cbson_loads_from_string] *)
Definition cbson_loads_from_string (bson : string) : result Array :=
  match bson_reader_read bson with
  | None =>
      Throw (MongoException
               "Unexpected end of BSON. Input document is likely corrupted!")
  | Some obj => cbson_loads bson_utf8_validate (Some obj)
  end.

End Reader.

(** A buffer that holds a whole document: at least five bytes, and as many
    as its first four bytes declare. *)
Definition framed (d : string) : Prop :=
  5 <= size d <= INT32_MAX /\ le_uint32 d = size d.

(** A buffer cut short of a document: fewer than the five bytes of the empty
    document, or a proper prefix of a framed buffer. *)
Definition truncated (buf : string) : Prop :=
  size buf < 5 \/ exists rest, rest <> "" /\ framed (buf ++ rest)%string.

(** ** libmongoc *)

Inductive mongoc_insert_flags_t : Type :=
| MONGOC_INSERT_NONE
| MONGOC_INSERT_CONTINUE_ON_ERROR.

Inductive mongoc_delete_flags_t : Type :=
| MONGOC_DELETE_NONE
| MONGOC_DELETE_SINGLE_REMOVE.

Inductive mongoc_update_flags_t : Type :=
| MONGOC_UPDATE_NONE
| MONGOC_UPDATE_UPSERT
| MONGOC_UPDATE_MULTI_UPDATE.

Definition MONGOC_WRITE_CONCERN_W_DEFAULT : Z := -2.

Record mongoc_write_concern_t : Type := WriteConcern { wc_w : Z }.

Definition mongoc_write_concern_new : mongoc_write_concern_t :=
  WriteConcern MONGOC_WRITE_CONCERN_W_DEFAULT.

Definition mongoc_write_concern_set_w (write_concern : mongoc_write_concern_t)
    (w : Z) : mongoc_write_concern_t :=
  WriteConcern w.

(** What the server side answers during one call of a method: the object id
    [bson_oid_init] generates, for each write the returned [bool] with the
    [error.message] it leaves, and the document behind
    [mongoc_collection_get_last_error] (NULL when there is none). *)
Record driver : Type := Driver {
  bson_oid_init : bson_oid_t;
  mongoc_collection_insert :
    mongoc_insert_flags_t -> bson_t -> mongoc_write_concern_t -> bool * string;
  mongoc_collection_delete :
    mongoc_delete_flags_t -> bson_t -> mongoc_write_concern_t -> bool * string;
  mongoc_collection_update :
    mongoc_update_flags_t -> bson_t -> bson_t -> mongoc_write_concern_t
    -> bool * string;
  mongoc_collection_get_last_error :
    mongoc_update_flags_t -> bson_t -> bson_t -> option bson_t
}.

(** The calls a method makes across its boundary, in the order it makes
    them; an encoded buffer is named by the C variable that holds it. *)
Inductive call : Type :=
| Call_get_collection
| Call_bson_oid_init
| Call_encodeToBSON (var : string) (a : Array)
| Call_write_concern_new
| Call_write_concern_set_w (w : Z)
| Call_collection_insert (flags : mongoc_insert_flags_t) (document : bson_t)
    (write_concern : mongoc_write_concern_t)
| Call_collection_delete (flags : mongoc_delete_flags_t) (selector : bson_t)
    (write_concern : mongoc_write_concern_t)
| Call_collection_update (flags : mongoc_update_flags_t)
    (selector update : bson_t) (write_concern : mongoc_write_concern_t)
| Call_collection_get_last_error
| Call_collection_destroy
| Call_write_concern_destroy
| Call_bson_destroy (var : string).

(** The resources of a call. *)
Inductive resource : Type :=
| Collection_handle
| Bson_buffer (var : string)
| Write_concern.

Definition resource_eqb (r1 r2 : resource) : bool :=
  match r1, r2 with
  | Collection_handle, Collection_handle => true
  | Bson_buffer v1, Bson_buffer v2 => String.eqb v1 v2
  | Write_concern, Write_concern => true
  | _, _ => false
  end.

Definition acquires (c : call) : option resource :=
  match c with
  | Call_get_collection => Some Collection_handle
  | Call_encodeToBSON var _ => Some (Bson_buffer var)
  | Call_write_concern_new => Some Write_concern
  | _ => None
  end.

Definition releases (c : call) : option resource :=
  match c with
  | Call_collection_destroy => Some Collection_handle
  | Call_bson_destroy var => Some (Bson_buffer var)
  | Call_write_concern_destroy => Some Write_concern
  | _ => None
  end.

(** The resources acquired and not released along a trace. *)
Fixpoint live_from (held : list resource) (trace : list call)
    : list resource :=
  match trace with
  | [] => held
  | c :: rest =>
      let held :=
        match acquires c with
        | Some r => (held ++ [r])%list
        | None => held
        end in
      let held :=
        match releases c with
        | Some r => filter (fun r' => negb (resource_eqb r r')) held
        | None => held
        end in
      live_from held rest
  end.

Definition live (trace : list call) : list resource := live_from [] trace.

(** Write calls in a trace. *)
Definition is_write (c : call) : bool :=
  match c with
  | Call_collection_insert _ _ _
  | Call_collection_delete _ _ _
  | Call_collection_update _ _ _ _ => true
  | _ => false
  end.

Definition writes (trace : list call) : list call := filter is_write trace.

(** ** A method body: local state, the trace of calls, exceptions *)

Definition M (S A : Type) : Type := S -> list call -> result A * S * list call.

Definition ret {S A} (a : A) : M S A := fun s t => (Return a, s, t).

Definition bind {S A B} (m : M S A) (k : A -> M S B) : M S B :=
  fun s t =>
    match m s t with
    | (Return a, s', t') => k a s' t'
    | (Throw e, s', t') => (Throw e, s', t')
    end.

(** [mongoThrow<E>(msg)] *)
Definition mongoThrow {S A} (e : exn) : M S A := fun s t => (Throw e, s, t).

Definition emit {S} (c : call) : M S unit :=
  fun s t => (Return tt, s, (t ++ [c])%list).

Definition get {S} : M S S := fun s t => (Return s, s, t).

Definition put {S} (s : S) : M S unit := fun _ t => (Return tt, s, t).

Definition lift {S A} (r : result A) : M S A := fun s t => (r, s, t).

Definition when {S} (b : bool) (m : M S unit) : M S unit :=
  if b then m else ret tt.

Declare Scope method_scope.
Delimit Scope method_scope with method.
Notation "x <- m ;; k" := (bind m (fun x => k))
  (at level 61, m at next level, right associativity) : method_scope.
Notation "m ;; k" := (bind m (fun _ => k))
  (at level 61, right associativity) : method_scope.

(** The outcome of a call: what it returns or throws, the local state it
    leaves and the calls it has made. *)
Definition run {S A} (m : M S A) (s : S) : result A * S * list call :=
  m s [].

Definition outcome {S A} (o : result A * S * list call) : result A :=
  fst (fst o).
Definition final {S A} (o : result A * S * list call) : S := snd (fst o).
Definition trace {S A} (o : result A * S * list call) : list call := snd o.

(** ** MongoCollection.cpp *)

Section MongoCollection.

Open Scope method_scope.

Variable bson_utf8_validate : string -> bool -> bool.

(** [encodeToBSON] of contrib/encode.h. *)
Variable encodeToBSON : Array -> bson_t.

(** The integer value the runtime gives a double and a string. *)
Variable double_toInt64 : double -> Z.
Variable string_toInt64 : string -> Z.

(** [Variant::toInt64] *)
Definition toInt64 (v : Variant) : Z :=
  match v with
  | VNull => 0
  | VBool b => if b then 1 else 0
  | VInt n => n
  | VDouble d => double_toInt64 d
  | VString s => string_toInt64 s
  | VArray a => if Arr.empty a then 0 else 1
  | VObject _ _ => 1
  end.

Variable drv : driver.

(** [MongoCollection::insert].  The local state is the array behind the
    parameter [a], which [doc_array] refers to. *)
Definition insert (options : Array) : M Array Variant :=
  emit Call_get_collection ;;
  doc_array <- get ;;
  when (negb (Arr.exists_ doc_array "_id"))
    (emit Call_bson_oid_init ;;
     let oid := bson_oid_init drv in
     let id := bson_oid_to_string oid in
     let data := create_object s_MongoId (Arr.packed1 (VString id)) in
     put (Arr.add doc_array "_id" data)) ;;
  doc_array <- get ;;
  emit (Call_encodeToBSON "doc" doc_array) ;;
  let doc := encodeToBSON doc_array in
  let w_flag := MONGOC_WRITE_CONCERN_W_DEFAULT in
  emit Call_write_concern_new ;;
  let write_concern := mongoc_write_concern_new in
  emit (Call_write_concern_set_w w_flag) ;;
  let write_concern := mongoc_write_concern_set_w write_concern w_flag in
  emit (Call_collection_insert MONGOC_INSERT_NONE doc write_concern) ;;
  let '(ret_, error_message) :=
    mongoc_collection_insert drv MONGOC_INSERT_NONE doc write_concern in
  (if negb ret_ then mongoThrow (MongoCursorException error_message)
   else ret tt) ;;
  emit Call_collection_destroy ;;
  emit (Call_bson_destroy "doc") ;;
  ret (VBool ret_).

(** The delete flag [remove] settles on. *)
Definition remove_delete_flag (options : Array) : mongoc_delete_flags_t :=
  let delete_flag := MONGOC_DELETE_NONE in
  if negb (Arr.empty options) then
    if Bool.eqb (toBoolean (Arr.rvalAt options "justOne")) true
    then MONGOC_DELETE_SINGLE_REMOVE
    else delete_flag
  else delete_flag.

(** [MongoCollection::remove] *)
Definition remove (criteria options : Array) : M unit Variant :=
  emit Call_get_collection ;;
  emit (Call_encodeToBSON "criteria_b" criteria) ;;
  let criteria_b := encodeToBSON criteria in
  let delete_flag := remove_delete_flag options in
  let w_flag := MONGOC_WRITE_CONCERN_W_DEFAULT in
  emit Call_write_concern_new ;;
  let write_concern := mongoc_write_concern_new in
  emit (Call_write_concern_set_w w_flag) ;;
  let write_concern := mongoc_write_concern_set_w write_concern w_flag in
  emit (Call_collection_delete delete_flag criteria_b write_concern) ;;
  let '(ret_, error_message) :=
    mongoc_collection_delete drv delete_flag criteria_b write_concern in
  (if negb ret_ then mongoThrow (MongoCursorException error_message)
   else ret tt) ;;
  emit Call_collection_destroy ;;
  emit (Call_bson_destroy "criteria_b") ;;
  ret (VBool ret_).

(** The update flag [update] settles on: two assignments in a row. *)
Definition update_update_flag (options : Array) : mongoc_update_flags_t :=
  let update_flag := MONGOC_UPDATE_NONE in
  if negb (Arr.empty options) then
    let update_flag :=
      if Bool.eqb (toBoolean (Arr.rvalAt options "multiple")) true
      then MONGOC_UPDATE_MULTI_UPDATE
      else update_flag in
    let update_flag :=
      if Bool.eqb (toBoolean (Arr.rvalAt options "upsert")) true
      then MONGOC_UPDATE_UPSERT
      else update_flag in
    update_flag
  else update_flag.

(** The array [update] builds from the decoded reply. *)
Definition update_output (collectionReturn : Array) : Array :=
  let ouput := Arr.new in
  let ouput := Arr.add ouput "ok" (VInt 1) in
  let ouput :=
    Arr.add ouput "nModified" (Arr.rvalAt collectionReturn "nModified") in
  let ouput := Arr.add ouput "n" (Arr.rvalAt collectionReturn "nMatched") in
  let ouput :=
    Arr.add ouput "updatedExisting"
      (VBool (if 0 <? toInt64 (Arr.rvalAt collectionReturn "nMatched")
              then true else false)) in
  let ouput :=
    Arr.add ouput "err" (Arr.rvalAt collectionReturn "writeErrors") in
  let ouput :=
    Arr.add ouput "errmsg" (Arr.rvalAt collectionReturn "writeErrors") in
  let mongotimestampParam := Arr.new in
  let data := create_object s_MongoTimestamp mongotimestampParam in
  let ouput := Arr.add ouput "lastOp" data in
  let ouput :=
    Arr.add ouput "mongoRaw" (Variant_of_Array collectionReturn) in
  ouput.

(** [MongoCollection::update] *)
Definition update (criteria new_object options : Array) : M unit Variant :=
  emit Call_get_collection ;;
  emit (Call_encodeToBSON "selector" criteria) ;;
  let selector := encodeToBSON criteria in
  emit (Call_encodeToBSON "update" new_object) ;;
  let update := encodeToBSON new_object in
  let update_flag := update_update_flag options in
  let w_flag := MONGOC_WRITE_CONCERN_W_DEFAULT in
  emit Call_write_concern_new ;;
  let write_concern := mongoc_write_concern_new in
  emit (Call_write_concern_set_w w_flag) ;;
  let write_concern := mongoc_write_concern_set_w write_concern w_flag in
  emit (Call_collection_update update_flag selector update write_concern) ;;
  let '(ret_, error_message) :=
    mongoc_collection_update drv update_flag selector update write_concern in
  emit (Call_bson_destroy "update") ;;
  emit (Call_bson_destroy "selector") ;;
  (if negb ret_ then mongoThrow (MongoCursorException error_message)
   else ret tt) ;;
  emit Call_collection_get_last_error ;;
  let collection_error :=
    mongoc_collection_get_last_error drv update_flag selector update in
  collectionReturn <- lift (cbson_loads bson_utf8_validate collection_error) ;;
  emit Call_collection_destroy ;;
  ret (Variant_of_Array (update_output collectionReturn)).

End MongoCollection.

(** ** Collaborators for the examples *)

Fixpoint all_chars (p : ascii -> bool) (s : string) : bool :=
  match s with
  | EmptyString => true
  | String c rest => p c && all_chars p rest
  end.

(** A validator that accepts seven-bit text only. *)
Definition seven_bit_validate (utf8 : string) (allow_null : bool) : bool :=
  all_chars
    (fun c => (N_of_ascii c <? 128)%N && (allow_null || negb (Ascii.eqb c zero)))
    utf8.

(** An encoder of integers, strings, booleans and null; other values are
    left out. *)
Fixpoint scalar_fields (a : Array) : bson_iter_t :=
  match a with
  | [] => IterEnd
  | (k, VInt n) :: rest => IterElem k (BInt64 n) (scalar_fields rest)
  | (k, VString s) :: rest => IterElem k (BUtf8 s) (scalar_fields rest)
  | (k, VBool b) :: rest => IterElem k (BBool b) (scalar_fields rest)
  | (k, VNull) :: rest => IterElem k BNull (scalar_fields rest)
  | _ :: rest => scalar_fields rest
  end.

Definition scalar_encode (a : Array) : bson_t := Bson 5 (scalar_fields a).

(** A reader view with no element. *)
Definition no_elements (data : string) : bson_iter_t := IterEnd.

(** A driver whose writes all fail with [message]. *)
Definition failing_driver (message : string) : driver :=
  Driver (Oid [])
    (fun _ _ _ => (false, message))
    (fun _ _ _ => (false, message))
    (fun _ _ _ _ => (false, message))
    (fun _ _ _ => None).

(** A driver whose writes all succeed, that generates [oid] and leaves
    [reply] as the last error document. *)
Definition succeeding_driver (oid : bson_oid_t) (reply : option bson_t)
    : driver :=
  Driver oid
    (fun _ _ _ => (true, ""))
    (fun _ _ _ => (true, ""))
    (fun _ _ _ _ => (true, ""))
    (fun _ _ _ => reply).

(** The reply [{nMatched: 2, nModified: 1, writeErrors: []}]. *)
Definition reply_2_1 : bson_t :=
  Bson 50
    (IterElem "nMatched" (BInt32 2)
       (IterElem "nModified" (BInt32 1)
          (IterElem "writeErrors" (BArray (Some (Bson 5 IterEnd))) IterEnd))).

(** ** Notions the statements use *)

(** The document [insert] works on after it has looked for [_id]. *)
Definition insert_document (drv : driver) (a : Array) : Array :=
  if Arr.exists_ a "_id" then a
  else
    Arr.add a "_id"
      (create_object s_MongoId
         (Arr.packed1 (VString (bson_oid_to_string (bson_oid_init drv))))).

(** The write concern the three methods submit. *)
Definition default_write_concern : mongoc_write_concern_t :=
  mongoc_write_concern_set_w mongoc_write_concern_new
    MONGOC_WRITE_CONCERN_W_DEFAULT.

(** The child of an embedded document or array is dropped: its iterator
    does not initialise, or its traversal reports an early stop. *)
Definition child_dropped (validate : string -> bool -> bool) (child : bson_t)
    : Prop :=
  bson_iter_init (Some child) = None
  \/ exists it,
       bson_iter_init (Some child) = Some it
       /\ fst (bson_iter_visit_all validate it Arr.new) = true.

(** The empty document, [05 00 00 00 00], is read whole; its first four
    bytes alone are not. *)
Definition empty_document : string :=
  String (ascii_of_nat 5)
    (String zero (String zero (String zero (String zero EmptyString)))).

(** The document [{a: null}]: [08 00 00 00 0a 61 00 00]. *)
Definition null_document : string :=
  String (ascii_of_nat 8)
    (String zero (String zero (String zero
       (String (ascii_of_nat 10) (String "a" (String zero (String zero
          EmptyString))))))).

(** A child whose only key is the byte 255, which the validator refuses. *)
Definition child_with_bad_key : bson_t :=
  Bson 8 (IterElem (String (ascii_of_nat 255) EmptyString) BNull IterEnd).

(** The elements of one level of a document, in the order of iteration. *)
Fixpoint elements (iter : bson_iter_t) : list (string * bson_value) :=
  match iter with
  | IterElem key value next => (key, value) :: elements next
  | IterEnd | IterCorrupt => []
  end.

(** The iteration over given elements that goes on as [tail]. *)
Fixpoint iter_of (l : list (string * bson_value)) (tail : bson_iter_t)
    : bson_iter_t :=
  match l with
  | [] => tail
  | (key, value) :: rest => IterElem key value (iter_of rest tail)
  end.

(** The same iteration with a regular end where [bson_iter_next] fails. *)
Fixpoint sealed (iter : bson_iter_t) : bson_iter_t :=
  match iter with
  | IterElem key value next => IterElem key value (sealed next)
  | IterEnd | IterCorrupt => IterEnd
  end.

(** An element [bson_iter_visit_all] stops at: its key is rejected, or it
    is a string that is rejected. *)
Definition stops_at (validate : string -> bool -> bool)
    (kv : string * bson_value) : bool :=
  key_rejected validate (fst kv)
  || match snd kv with
     | BUtf8 v => negb (validate v true)
     | _ => false
     end.

(** The elements before the first one the traversal stops at. *)
Fixpoint visited (validate : string -> bool -> bool)
    (l : list (string * bson_value)) : list (string * bson_value) :=
  match l with
  | [] => []
  | kv :: rest =>
      if stops_at validate kv then [] else kv :: visited validate rest
  end.

(** An element that leaves an entry in the output when it is visited: its
    type has a visitor and, for a document or an array, the child is not
    dropped. *)
Definition emits (validate : string -> bool -> bool) (v : bson_value) : bool :=
  match v with
  | BUndefined | BSymbol _ | BCodeWScope _ _ => false
  | BDocument child | BArray child =>
      match bson_iter_init child with
      | Some it => negb (fst (bson_iter_visit_all validate it Arr.new))
      | None => false
      end
  | _ => true
  end.

(** The string holds a NUL. *)
Fixpoint has_nul (s : string) : bool :=
  match s with
  | EmptyString => false
  | String c rest => Ascii.eqb c zero || has_nul rest
  end.

(** The string holds no [/]. *)
Definition no_slash (s : string) : bool :=
  all_chars (fun c => negb (Ascii.eqb c "/")) s.

(** The document with every embedded array, at any depth, turned into an
    embedded document of the same child. *)
Fixpoint documents_t (b : bson_t) : bson_t :=
  match b with
  | Bson len body => Bson len (documents_iter body)
  end
with documents_iter (iter : bson_iter_t) : bson_iter_t :=
  match iter with
  | IterElem key value next =>
      IterElem key (documents_value value) (documents_iter next)
  | IterEnd => IterEnd
  | IterCorrupt => IterCorrupt
  end
with documents_value (v : bson_value) : bson_value :=
  match v with
  | BArray (Some child) => BDocument (Some (documents_t child))
  | BArray None => BDocument None
  | BDocument (Some child) => BDocument (Some (documents_t child))
  | other => other
  end.

(** The number of elements of a document, embedded ones included. *)
Fixpoint weight_t (b : bson_t) : nat :=
  match b with
  | Bson _ body => weight_iter body
  end
with weight_iter (iter : bson_iter_t) : nat :=
  match iter with
  | IterElem _ value next => S (weight_value value + weight_iter next)
  | IterEnd | IterCorrupt => 0
  end
with weight_value (v : bson_value) : nat :=
  match v with
  | BDocument (Some child) | BArray (Some child) => weight_t child
  | _ => 0
  end.

(** The value of a lower-case hexadecimal digit. *)
Definition hex_value (c : ascii) : option N :=
  let n := N_of_ascii c in
  if ((48 <=? n) && (n <=? 57))%N then Some (n - 48)%N
  else if ((97 <=? n) && (n <=? 102))%N then Some (n - 87)%N
  else None.

(** The bytes a string of hexadecimal digits, two per byte, stands for. *)
Fixpoint bytes_of_hex (s : string) : option (list ascii) :=
  match s with
  | EmptyString => Some []
  | String _ EmptyString => None
  | String hi (String lo rest) =>
      match hex_value hi, hex_value lo, bytes_of_hex rest with
      | Some h, Some l, Some bs => Some (ascii_of_N (16 * h + l) :: bs)
      | _, _, _ => None
      end
  end.

(** A call [$collection->insert($a, $options)] as its caller sees it.  The
    method takes [Variant a] by value ([mixed $a] in its declaration), so
    it holds a second reference to the array of the caller, and
    [Array::add] copies an array that is referenced more than once before
    it writes to it.  The caller is left with the array it passed, what the
    method returns or throws, and the calls the method has made. *)
Record caller_view : Type := Caller_view {
  returned : result Variant;
  document : Array;
  calls : list call
}.

Definition call_insert (encodeToBSON : Array -> bson_t) (drv : driver)
    (a options : Array) : caller_view :=
  let o := run (insert encodeToBSON drv options) a in
  Caller_view (outcome o) a (trace o).

(** The [MongoId] made from an object id. *)
Definition MongoId_of (oid : bson_oid_t) : Variant :=
  create_object s_MongoId (Arr.packed1 (VString (bson_oid_to_string oid))).

(** Unfolds a method body down to its calls. *)
Ltac run_method :=
  unfold run, bind, emit, get, put, ret, when, mongoThrow, lift,
    outcome, final, trace; simpl.

(** * Properties *)

(** ** Arrays *)

Lemma count_app (a b : Array) (key : string) :
  Arr.count (a ++ b)%list key = (Arr.count a key + Arr.count b key)%nat.
Proof.
  unfold Arr.count. rewrite filter_app, length_app. reflexivity.
Qed.

Lemma exists_false_count (a : Array) (key : string) :
  Arr.exists_ a key = false -> Arr.count a key = 0%nat.
Proof.
  unfold Arr.exists_, Arr.count.
  induction a as [|kv a IH]; simpl; intros H.
  - reflexivity.
  - apply orb_false_iff in H. destruct H as [Hkv Ha].
    rewrite Hkv. now apply IH.
Qed.

Lemma exists_false_find (a : Array) (key : string) :
  Arr.exists_ a key = false -> find (Arr.has_key key) a = None.
Proof.
  unfold Arr.exists_.
  induction a as [|kv a IH]; simpl; intros H.
  - reflexivity.
  - apply orb_false_iff in H. destruct H as [Hkv Ha].
    rewrite Hkv. now apply IH.
Qed.

Lemma has_key_refl (key : string) (v : Variant) :
  Arr.has_key key (key, v) = true.
Proof. unfold Arr.has_key. simpl. apply String.eqb_refl. Qed.

Lemma rvalAt_add_new (a : Array) (key : string) (v : Variant) :
  Arr.exists_ a key = false -> Arr.rvalAt (Arr.add a key v) key = v.
Proof.
  intros H. unfold Arr.rvalAt, Arr.add.
  induction a as [|kv a IH]; simpl.
  - rewrite has_key_refl. reflexivity.
  - unfold Arr.exists_ in H. simpl in H.
    apply orb_false_iff in H. destruct H as [Hkv Ha].
    rewrite Hkv. now apply IH.
Qed.

Lemma count_add_new (a : Array) (key : string) (v : Variant) :
  Arr.exists_ a key = false -> Arr.count (Arr.add a key v) key = 1%nat.
Proof.
  intros H. unfold Arr.add. rewrite count_app.
  rewrite (exists_false_count _ _ H).
  unfold Arr.count. simpl. rewrite has_key_refl. reflexivity.
Qed.

Lemma rvalAt_empty (a : Array) (key : string) :
  Arr.empty a = true -> Arr.rvalAt a key = VNull.
Proof. destruct a; [reflexivity | discriminate]. Qed.

Lemma rvalAt_absent (a : Array) (key : string) :
  Arr.exists_ a key = false -> Arr.rvalAt a key = VNull.
Proof.
  intros H. unfold Arr.rvalAt. now rewrite (exists_false_find _ _ H).
Qed.

(** ** The decoder *)

Lemma size_append (s1 s2 : string) :
  size (s1 ++ s2)%string = size s1 + size s2.
Proof.
  unfold size. induction s1 as [|c s1 IH]; simpl String.length.
  - simpl. lia.
  - simpl append. simpl String.length. lia.
Qed.

Lemma size_nonempty (s : string) : s <> "" -> 0 < size s.
Proof.
  unfold size. destruct s; [congruence | simpl; lia].
Qed.

Lemma byte_at_append (s1 s2 : string) (n : nat) :
  Z.of_nat n < size s1 -> byte_at (s1 ++ s2) n = byte_at s1 n.
Proof.
  unfold size, byte_at. intros H.
  rewrite <- append_correct1 by lia. reflexivity.
Qed.

Lemma le_uint32_append (s1 s2 : string) :
  4 <= size s1 -> le_uint32 (s1 ++ s2) = le_uint32 s1.
Proof.
  intros H. unfold le_uint32.
  rewrite !byte_at_append by (simpl; lia). reflexivity.
Qed.

Lemma to_int32_small (u : Z) : 0 <= u <= INT32_MAX -> to_int32 u = u.
Proof.
  unfold to_int32, INT32_MAX. intros H.
  rewrite Z.mod_small by lia.
  destruct (Z.ltb_spec u (2 ^ 31)); lia.
Qed.

Lemma size_nonneg (s : string) : 0 <= size s.
Proof. unfold size. lia. Qed.

(** The reader hands out no document from a truncated buffer. *)
Lemma bson_reader_read_truncated (elements : string -> bson_iter_t)
    (buf : string) :
  truncated buf -> bson_reader_read elements buf = None.
Proof.
  intros [Hshort | (rest & Hrest & [Hsize Hlen])]; unfold bson_reader_read.
  - destruct (Z.ltb_spec (0 + 4) (size buf)); [lia | reflexivity].
  - destruct (Z.ltb_spec (0 + 4) (size buf)) as [Hbuf | _]; [|reflexivity].
    rewrite size_append in Hsize, Hlen.
    rewrite le_uint32_append in Hlen by lia.
    pose proof (size_nonempty _ Hrest) as Hpos.
    rewrite Hlen.
    rewrite to_int32_small by lia.
    destruct (Z.ltb_spec (size buf + size rest) 5); [reflexivity|].
    rewrite Z.sub_0_r, to_int32_small by (unfold INT32_MAX in *; lia).
    destruct (Z.ltb_spec (size buf) (size buf + size rest)); [reflexivity | lia].
Qed.

(** C5.  Decoding a buffer that is truncated below a document (fewer than
    five bytes, or a proper prefix of a buffer that holds as many bytes as
    its length prefix declares) fails with the decoder's [MongoException]
    "Unexpected end of BSON": the call returns no array, partial or not. *)
Theorem cbson_loads_from_string_truncated
    (bson_utf8_validate : string -> bool -> bool)
    (bson_elements : string -> bson_iter_t) (buf : string) :
  truncated buf ->
  cbson_loads_from_string bson_utf8_validate bson_elements buf
  = Throw (MongoException
             "Unexpected end of BSON. Input document is likely corrupted!").
Proof.
  intros H. unfold cbson_loads_from_string.
  now rewrite (bson_reader_read_truncated bson_elements buf H).
Qed.

Lemma cbson_loads_from_string_truncated_witness :
  truncated "abc"
  /\ cbson_loads_from_string seven_bit_validate no_elements "abc"
     = Throw (MongoException
                "Unexpected end of BSON. Input document is likely corrupted!")
  /\ truncated (substring 0 6 null_document)
  /\ cbson_loads_from_string seven_bit_validate no_elements
       (substring 0 6 null_document)
     = Throw (MongoException
                "Unexpected end of BSON. Input document is likely corrupted!").
Proof.
  assert (H3 : truncated "abc") by (left; unfold size; simpl; lia).
  assert (H6 : truncated (substring 0 6 null_document)).
  { right. exists (substring 6 2 null_document).
    split; [discriminate|].
    unfold framed, size, INT32_MAX. simpl. split; [lia | reflexivity]. }
  split; [exact H3|]. split; [|split; [exact H6|]].
  - exact (cbson_loads_from_string_truncated seven_bit_validate no_elements
             "abc" H3).
  - exact (cbson_loads_from_string_truncated seven_bit_validate no_elements
             (substring 0 6 null_document) H6).
Defined.

Example bson_reader_read_empty_document :
  bson_reader_read no_elements empty_document = Some (Bson 5 IterEnd)
  /\ bson_reader_read no_elements (substring 0 4 empty_document) = None.
Proof. split; reflexivity. Qed.

(** One step of the traversal, in the shape of the loop of
    [bson_iter_visit_all]: the key is validated, the element goes to its
    entry of [gLoadsVisitors], and the traversal goes on unless the visitor
    asks to stop. *)
Lemma bson_iter_visit_all_step (validate : string -> bool -> bool)
    (key : string) (value : bson_value) (next : bson_iter_t) (data : Array) :
  bson_iter_visit_all validate (IterElem key value next) data
  = if key_rejected validate key then (true, data)
    else
      let '(stop, data') :=
        gLoadsVisitors validate (IterElem key value next) key value data in
      if stop then (true, data')
      else bson_iter_visit_all validate next data'.
Proof.
  simpl. destruct (key_rejected validate key); [reflexivity|].
  destruct value as [| |[[len child]|]|[[len child]|]| | | | | | | | | | | | | | | |];
    try reflexivity;
    unfold gLoadsVisitors, cbson_loads_visit_document, cbson_loads_visit_array,
      bson_iter_init;
    destruct (len <? 5); reflexivity.
Qed.




Example cbson_loads_timestamp_document :
  cbson_loads seven_bit_validate
    (Some (Bson 17 (IterElem "ts" (BTimestamp 100 1) IterEnd)))
  = Return [("ts", VObject "MongoTimestamp" [("0", VInt 100); ("1", VInt 1)])].
Proof. reflexivity. Qed.

Lemma visit_container_dropped (validate : string -> bool -> bool)
    (child : bson_t) (key : string) (data : Array) :
  child_dropped validate child ->
  match bson_iter_init (Some child) with
  | Some it =>
      let '(stopped, obj) := bson_iter_visit_all validate it Arr.new in
      if negb stopped
                then (false, Arr.add data key (Variant_of_Array obj))
      else (false, data)
  | None => (false, data)
  end = (false, data).
Proof.
  intros [Hinit | (it & Hinit & Hstop)]; rewrite Hinit; [reflexivity|].
  destruct (bson_iter_visit_all validate it Arr.new) as [stopped obj].
  simpl in Hstop. subst stopped. reflexivity.
Qed.

(** C10.  When the child iterator of an embedded document or array does not
    initialise, or the traversal of the child reports an early stop, the
    visitor leaves the parent array as it was and returns "continue"; the
    parent traversal then goes on with the next element as if the key were
    not there, and [cbson_loads] of such a parent returns an array: nothing
    is thrown. *)
Theorem cbson_loads_visit_container_dropped
    (validate : string -> bool -> bool) (iter : bson_iter_t) (key : string)
    (child : bson_t) (next : bson_iter_t) (data : Array) (len : Z) :
  child_dropped validate child ->
  key_rejected validate key = false ->
  5 <= len ->
  cbson_loads_visit_document validate (Some iter) (Some key) (Some child) data
  = (false, data)
  /\ cbson_loads_visit_array validate (Some iter) (Some key) (Some child) data
     = (false, data)
  /\ bson_iter_visit_all validate
       (IterElem key (BDocument (Some child)) next) data
     = bson_iter_visit_all validate next data
  /\ bson_iter_visit_all validate
       (IterElem key (BArray (Some child)) next) data
     = bson_iter_visit_all validate next data
  /\ cbson_loads validate
       (Some (Bson len (IterElem key (BDocument (Some child)) next)))
     = Return (snd (bson_iter_visit_all validate next Arr.new))
  /\ cbson_loads validate
       (Some (Bson len (IterElem key (BArray (Some child)) next)))
     = Return (snd (bson_iter_visit_all validate next Arr.new)).
Proof.
  intros Hdrop Hkey Hlen.
  assert (Hdoc : forall it d,
    cbson_loads_visit_document validate (Some it) (Some key) (Some child) d
    = (false, d)).
  { intros it d. unfold cbson_loads_visit_document.
    now apply visit_container_dropped. }
  assert (Harr : forall it d,
    cbson_loads_visit_array validate (Some it) (Some key) (Some child) d
    = (false, d)).
  { intros it d. unfold cbson_loads_visit_array.
    now apply visit_container_dropped. }
  assert (Hstep_doc : forall d,
    bson_iter_visit_all validate
      (IterElem key (BDocument (Some child)) next) d
    = bson_iter_visit_all validate next d).
  { intros d. rewrite bson_iter_visit_all_step, Hkey.
    unfold gLoadsVisitors. now rewrite Hdoc. }
  assert (Hstep_arr : forall d,
    bson_iter_visit_all validate
      (IterElem key (BArray (Some child)) next) d
    = bson_iter_visit_all validate next d).
  { intros d. rewrite bson_iter_visit_all_step, Hkey.
    unfold gLoadsVisitors. now rewrite Harr. }
  repeat split; auto.
  - unfold cbson_loads, bson_iter_init.
    destruct (Z.ltb_spec len 5); [lia|]. now rewrite Hstep_doc.
  - unfold cbson_loads, bson_iter_init.
    destruct (Z.ltb_spec len 5); [lia|]. now rewrite Hstep_arr.
Qed.

Lemma cbson_loads_visit_container_dropped_witness :
  cbson_loads seven_bit_validate
    (Some (Bson 30
             (IterElem "a" (BDocument (Some child_with_bad_key))
                (IterElem "b" (BInt32 7) IterEnd))))
  = Return [("b", VInt 7)].
Proof.
  refine (proj1 (proj2 (proj2 (proj2 (proj2
    (cbson_loads_visit_container_dropped seven_bit_validate IterEnd "a"
       child_with_bad_key (IterElem "b" (BInt32 7) IterEnd) Arr.new 30
       _ _ _)))))).
  - right. exists (IterElem (String (ascii_of_nat 255) EmptyString) BNull IterEnd).
    split; reflexivity.
  - reflexivity.
  - lia.
Defined.

(** ** The methods *)

(** [insert], run to its end. *)
Lemma run_insert (encodeToBSON : Array -> bson_t) (drv : driver)
    (options a : Array) :
  let doc_array := insert_document drv a in
  let doc := encodeToBSON doc_array in
  let before :=
    ([Call_get_collection]
     ++ (if Arr.exists_ a "_id" then [] else [Call_bson_oid_init])
     ++ [Call_encodeToBSON "doc" doc_array;
         Call_write_concern_new;
         Call_write_concern_set_w MONGOC_WRITE_CONCERN_W_DEFAULT;
         Call_collection_insert MONGOC_INSERT_NONE doc
           default_write_concern])%list in
  run (insert encodeToBSON drv options) a
  = match mongoc_collection_insert drv MONGOC_INSERT_NONE doc
            default_write_concern with
    | (true, _) =>
        (Return (VBool true), doc_array,
         (before ++ [Call_collection_destroy; Call_bson_destroy "doc"])%list)
    | (false, error_message) =>
        (Throw (MongoCursorException error_message), doc_array, before)
    end.
Proof.
  unfold insert, insert_document, default_write_concern. run_method.
  destruct (Arr.exists_ a "_id"); simpl;
    match goal with
    | |- context [mongoc_collection_insert ?d ?f ?b ?w] =>
        destruct (mongoc_collection_insert d f b w) as [[|] msg]
    end; reflexivity.
Qed.

(** [remove], run to its end. *)
Lemma run_remove (encodeToBSON : Array -> bson_t) (drv : driver)
    (criteria options : Array) :
  let criteria_b := encodeToBSON criteria in
  let delete_flag := remove_delete_flag options in
  let before :=
    [Call_get_collection;
     Call_encodeToBSON "criteria_b" criteria;
     Call_write_concern_new;
     Call_write_concern_set_w MONGOC_WRITE_CONCERN_W_DEFAULT;
     Call_collection_delete delete_flag criteria_b default_write_concern] in
  run (remove encodeToBSON drv criteria options) tt
  = match mongoc_collection_delete drv delete_flag criteria_b
            default_write_concern with
    | (true, _) =>
        (Return (VBool true), tt,
         (before
          ++ [Call_collection_destroy; Call_bson_destroy "criteria_b"])%list)
    | (false, error_message) =>
        (Throw (MongoCursorException error_message), tt, before)
    end.
Proof.
  unfold remove, default_write_concern. run_method.
  match goal with
  | |- context [mongoc_collection_delete ?d ?f ?b ?w] =>
      destruct (mongoc_collection_delete d f b w) as [[|] msg]
  end; reflexivity.
Qed.

(** [update], run to its end. *)
Lemma run_update (validate : string -> bool -> bool)
    (encodeToBSON : Array -> bson_t) (double_toInt64 : double -> Z)
    (string_toInt64 : string -> Z) (drv : driver)
    (criteria new_object options : Array) :
  let selector := encodeToBSON criteria in
  let update_ := encodeToBSON new_object in
  let update_flag := update_update_flag options in
  let before :=
    [Call_get_collection;
     Call_encodeToBSON "selector" criteria;
     Call_encodeToBSON "update" new_object;
     Call_write_concern_new;
     Call_write_concern_set_w MONGOC_WRITE_CONCERN_W_DEFAULT;
     Call_collection_update update_flag selector update_
       default_write_concern;
     Call_bson_destroy "update";
     Call_bson_destroy "selector"] in
  run (update validate encodeToBSON double_toInt64 string_toInt64 drv
         criteria new_object options) tt
  = match mongoc_collection_update drv update_flag selector update_
            default_write_concern with
    | (true, _) =>
        match cbson_loads validate
                (mongoc_collection_get_last_error drv update_flag selector
                   update_) with
        | Return collectionReturn =>
            (Return
               (VArray
                  (update_output double_toInt64 string_toInt64
                     collectionReturn)),
             tt,
             (before
              ++ [Call_collection_get_last_error;
                  Call_collection_destroy])%list)
        | Throw e =>
            (Throw e, tt, (before ++ [Call_collection_get_last_error])%list)
        end
    | (false, error_message) =>
        (Throw (MongoCursorException error_message), tt, before)
    end.
Proof.
  unfold update, default_write_concern. run_method.
  match goal with
  | |- context [mongoc_collection_update ?d ?f ?s ?u ?w] =>
      destruct (mongoc_collection_update d f s u w) as [[|] msg]
  end; simpl; [|reflexivity].
  match goal with
  | |- context [cbson_loads ?v ?b] => destruct (cbson_loads v b)
  end; reflexivity.
Qed.

Section Methods.

Variable validate : string -> bool -> bool.
Variable encodeToBSON : Array -> bson_t.
Variable double_toInt64 : double -> Z.
Variable string_toInt64 : string -> Z.
Variable drv : driver.

(** The fields of the array [update] returns. *)
Lemma update_output_fields (reply : Array) :
  let out := update_output double_toInt64 string_toInt64 reply in
  map fst out
  = ["ok"; "nModified"; "n"; "updatedExisting"; "err"; "errmsg"; "lastOp";
     "mongoRaw"]
  /\ Arr.rvalAt out "ok" = VInt 1
  /\ Arr.rvalAt out "nModified" = Arr.rvalAt reply "nModified"
  /\ Arr.rvalAt out "n" = Arr.rvalAt reply "nMatched"
  /\ Arr.rvalAt out "updatedExisting"
     = VBool (0 <? toInt64 double_toInt64 string_toInt64 (Arr.rvalAt reply "nMatched"))
  /\ Arr.rvalAt out "err" = Arr.rvalAt reply "writeErrors"
  /\ Arr.rvalAt out "errmsg" = Arr.rvalAt reply "writeErrors"
  /\ Arr.rvalAt out "lastOp" = VObject "MongoTimestamp" []
  /\ Arr.rvalAt out "mongoRaw" = Variant_of_Array reply.
Proof.
  cbv zeta. unfold update_output.
  repeat split; try reflexivity.
  unfold Arr.rvalAt at 1. simpl.
  now destruct (0 <? toInt64 double_toInt64 string_toInt64 (Arr.rvalAt reply "nMatched")).
Qed.

(** [update] returns whenever the write succeeds and the iterator over
    the last error document initialises. *)
Lemma update_returns (criteria new_object options : Array)
    (message : string) (it : bson_iter_t) :
  let update_flag := update_update_flag options in
  let selector := encodeToBSON criteria in
  let update_ := encodeToBSON new_object in
  mongoc_collection_update drv update_flag selector update_
    default_write_concern = (true, message) ->
  bson_iter_init
    (mongoc_collection_get_last_error drv update_flag selector update_)
  = Some it ->
  outcome (run (update validate encodeToBSON double_toInt64 string_toInt64 drv
                criteria new_object options) tt)
  = Return
      (VArray
         (update_output double_toInt64 string_toInt64
            (snd (bson_iter_visit_all validate it Arr.new)))).
Proof.
  intros update_flag selector update_ Hwrite Hinit.
  rewrite run_update. fold update_flag selector update_.
  rewrite Hwrite. unfold cbson_loads. rewrite Hinit. reflexivity.
Qed.


(** X21.  The document [insert] works on, which is the method's own (the
    parameter is passed by value), never goes to the driver without an
    [_id]: when the given document has none, the method's document is the
    given one with one more element at its end, [_id], whose value is the
    [MongoId] made from the object id generated in this call, so it has
    exactly one [_id]; when the given document has an [_id], the method's
    document is the given one and no object id is generated.  Either way
    the one write submits the encoding of this document. *)
Theorem insert_assigns_id (options a : Array) :
  let o := run (insert encodeToBSON drv options) a in
  let id :=
    VObject "MongoId"
      [("0", VString (bson_oid_to_string (bson_oid_init drv)))] in
  (if Arr.exists_ a "_id"
   then final o = a /\ ~ In Call_bson_oid_init (trace o)
   else final o = Arr.add a "_id" id
        /\ Arr.count (final o) "_id" = 1%nat
        /\ Arr.rvalAt (final o) "_id" = id
        /\ In Call_bson_oid_init (trace o))
  /\ Arr.exists_ (final o) "_id" = true
  /\ writes (trace o)
     = [Call_collection_insert MONGOC_INSERT_NONE (encodeToBSON (final o))
          default_write_concern].
Proof.
  cbv zeta. rewrite run_insert. cbv zeta. unfold insert_document.
  destruct (Arr.exists_ a "_id") eqn:Hid;
    destruct (mongoc_collection_insert drv _ _ _) as [[|] msg];
    unfold final, trace; simpl fst; simpl snd;
    repeat match goal with
           | |- _ /\ _ => split
           end;
    try reflexivity; try assumption;
    try (now apply count_add_new);
    try (now apply rvalAt_add_new);
    try (simpl; right; left; reflexivity);
    try (simpl; intros Hin;
         repeat (destruct Hin as [Hin|Hin]; [discriminate Hin|]);
         exact Hin).
  - unfold Arr.exists_, Arr.add. rewrite existsb_app. simpl.
    now rewrite orb_true_r.
  - unfold Arr.exists_, Arr.add. rewrite existsb_app. simpl.
    now rewrite orb_true_r.
Qed.

(** The flag of [update] by cases: [upsert] is looked at last and wins. *)
Lemma update_update_flag_cases (options : Array) :
  update_update_flag options
  = if toBoolean (Arr.rvalAt options "upsert") then MONGOC_UPDATE_UPSERT
    else if toBoolean (Arr.rvalAt options "multiple")
         then MONGOC_UPDATE_MULTI_UPDATE
         else MONGOC_UPDATE_NONE.
Proof.
  unfold update_update_flag.
  destruct (Arr.empty options) eqn:Hempty; simpl.
  - now rewrite !(rvalAt_empty _ _ Hempty).
  - destruct (toBoolean (Arr.rvalAt options "upsert")),
      (toBoolean (Arr.rvalAt options "multiple")); reflexivity.
Qed.

(** The one write of a call of [update]. *)
Lemma update_writes (criteria new_object options : Array) :
  writes
    (trace (run (update validate encodeToBSON double_toInt64 string_toInt64
                   drv criteria new_object options) tt))
  = [Call_collection_update (update_update_flag options)
       (encodeToBSON criteria) (encodeToBSON new_object)
       default_write_concern].
Proof.
  rewrite run_update. cbv zeta.
  destruct (mongoc_collection_update drv _ _ _ _) as [[|] msg];
    [destruct (cbson_loads validate _)|]; reflexivity.
Qed.

(** C3.  When the options of [update] have both [multiple] and [upsert]
    true, the flag is first set to multi-update and then overwritten with
    upsert, and the one write the call submits carries the upsert flag. *)
Theorem update_upsert_wins (criteria new_object options : Array) :
  toBoolean (Arr.rvalAt options "multiple") = true ->
  toBoolean (Arr.rvalAt options "upsert") = true ->
  update_update_flag options = MONGOC_UPDATE_UPSERT
  /\ writes
       (trace (run (update validate encodeToBSON double_toInt64
                      string_toInt64 drv criteria new_object options) tt))
     = [Call_collection_update MONGOC_UPDATE_UPSERT (encodeToBSON criteria)
          (encodeToBSON new_object) default_write_concern].
Proof.
  intros Hmultiple Hupsert.
  assert (Hflag : update_update_flag options = MONGOC_UPDATE_UPSERT).
  { rewrite update_update_flag_cases. now rewrite Hupsert. }
  split; [exact Hflag|].
  rewrite update_writes. now rewrite Hflag.
Qed.

(** The flag of [remove] by cases. *)
Lemma remove_delete_flag_cases (options : Array) :
  remove_delete_flag options
  = if toBoolean (Arr.rvalAt options "justOne")
    then MONGOC_DELETE_SINGLE_REMOVE
    else MONGOC_DELETE_NONE.
Proof.
  unfold remove_delete_flag.
  destruct (Arr.empty options) eqn:Hempty; simpl.
  - now rewrite (rvalAt_empty _ _ Hempty).
  - now destruct (toBoolean (Arr.rvalAt options "justOne")).
Qed.

(** The one write of a call of [remove]. *)
Lemma remove_writes (criteria options : Array) :
  writes (trace (run (remove encodeToBSON drv criteria options) tt))
  = [Call_collection_delete (remove_delete_flag options)
       (encodeToBSON criteria) default_write_concern].
Proof.
  rewrite run_remove. cbv zeta.
  destruct (mongoc_collection_delete drv _ _ _) as [[|] msg]; reflexivity.
Qed.

(** C4.  A call of [remove] submits one delete.  Its flag is the
    single-remove flag when the options hold a true [justOne]; it is the
    plain flag, which deletes every match, when the options are empty, when
    they have no [justOne], and when [justOne] is false. *)
Theorem remove_delete_mode (criteria options : Array) :
  let submitted :=
    writes (trace (run (remove encodeToBSON drv criteria options) tt)) in
  let delete flag :=
    [Call_collection_delete flag (encodeToBSON criteria)
       default_write_concern] in
  (toBoolean (Arr.rvalAt options "justOne") = true ->
   submitted = delete MONGOC_DELETE_SINGLE_REMOVE)
  /\ (Arr.empty options = true
       \/ Arr.exists_ options "justOne" = false
       \/ toBoolean (Arr.rvalAt options "justOne") = false ->
      submitted = delete MONGOC_DELETE_NONE).
Proof.
  cbv zeta. rewrite remove_writes, remove_delete_flag_cases.
  split.
  - intros H. now rewrite H.
  - intros [H | [H | H]].
    + now rewrite (rvalAt_empty _ _ H).
    + now rewrite (rvalAt_absent _ _ H).
    + now rewrite H.
Qed.

(** The one write of a call of [insert]. *)
Lemma insert_writes (options a : Array) :
  writes (trace (run (insert encodeToBSON drv options) a))
  = [Call_collection_insert MONGOC_INSERT_NONE
       (encodeToBSON (insert_document drv a)) default_write_concern].
Proof.
  rewrite run_insert. cbv zeta.
  destruct (Arr.exists_ a "_id");
    destruct (mongoc_collection_insert drv _ _ _) as [[|] msg]; reflexivity.
Qed.

(** C7.  When the write that [insert], [remove] or [update] submits is
    reported as failed, with a message, the call throws a
    [MongoCursorException] that carries this message as it is; the call has
    submitted this one write and no other, and returns no value. *)
Theorem write_failure_is_thrown (a criteria new_object options : Array)
    (message : string) :
  (mongoc_collection_insert drv MONGOC_INSERT_NONE
     (encodeToBSON (insert_document drv a)) default_write_concern
   = (false, message) ->
   let o := run (insert encodeToBSON drv options) a in
   outcome o = Throw (MongoCursorException message)
   /\ List.length (writes (trace o)) = 1%nat)
  /\ (mongoc_collection_delete drv (remove_delete_flag options)
        (encodeToBSON criteria) default_write_concern
      = (false, message) ->
      let o := run (remove encodeToBSON drv criteria options) tt in
      outcome o = Throw (MongoCursorException message)
      /\ List.length (writes (trace o)) = 1%nat)
  /\ (mongoc_collection_update drv (update_update_flag options)
        (encodeToBSON criteria) (encodeToBSON new_object)
        default_write_concern
      = (false, message) ->
      let o :=
        run (update validate encodeToBSON double_toInt64 string_toInt64 drv
               criteria new_object options) tt in
      outcome o = Throw (MongoCursorException message)
      /\ List.length (writes (trace o)) = 1%nat).
Proof.
  split; [|split]; intros H; cbv zeta.
  - rewrite insert_writes. split; [|reflexivity].
    rewrite run_insert. cbv zeta. now rewrite H.
  - rewrite remove_writes. split; [|reflexivity].
    rewrite run_remove. cbv zeta. now rewrite H.
  - rewrite update_writes. split; [|reflexivity].
    rewrite run_update. cbv zeta. now rewrite H.
Qed.

(** C8.  What a call leaves unreleased.  The write concern is live after
    every call of the three methods.  After a failed write, [insert] and
    [remove] also leave the collection handle and the encoded buffer live,
    and [update] the collection handle; [update] leaves the handle live as
    well when the reply cannot be decoded. *)
Theorem resources_left_live (a criteria new_object options : Array) :
  live (trace (run (insert encodeToBSON drv options) a))
  = (if fst (mongoc_collection_insert drv MONGOC_INSERT_NONE
               (encodeToBSON (insert_document drv a)) default_write_concern)
     then [Write_concern]
     else [Collection_handle; Bson_buffer "doc"; Write_concern])
  /\ live (trace (run (remove encodeToBSON drv criteria options) tt))
     = (if fst (mongoc_collection_delete drv (remove_delete_flag options)
                  (encodeToBSON criteria) default_write_concern)
        then [Write_concern]
        else [Collection_handle; Bson_buffer "criteria_b"; Write_concern])
  /\ live (trace (run (update validate encodeToBSON double_toInt64
                         string_toInt64 drv criteria new_object options) tt))
     = (if fst (mongoc_collection_update drv (update_update_flag options)
                  (encodeToBSON criteria) (encodeToBSON new_object)
                  default_write_concern)
        then match cbson_loads validate
                     (mongoc_collection_get_last_error drv
                        (update_update_flag options) (encodeToBSON criteria)
                        (encodeToBSON new_object)) with
             | Return _ => [Write_concern]
             | Throw _ => [Collection_handle; Write_concern]
             end
        else [Collection_handle; Write_concern]).
Proof.
  split; [|split].
  - rewrite run_insert. cbv zeta.
    destruct (Arr.exists_ a "_id");
      destruct (mongoc_collection_insert drv _ _ _) as [[|] msg]; reflexivity.
  - rewrite run_remove. cbv zeta.
    destruct (mongoc_collection_delete drv _ _ _) as [[|] msg]; reflexivity.
  - rewrite run_update. cbv zeta.
    destruct (mongoc_collection_update drv _ _ _ _) as [[|] msg];
      [destruct (cbson_loads validate _)|]; reflexivity.
Qed.

(** C9.  Two calls of [insert] on the same document, against the same
    driver, with any two options, run alike: same result, same final
    document, same calls.  The one write is submitted with the default
    write-concern level. *)
Theorem insert_ignores_options (a options1 options2 : Array) :
  run (insert encodeToBSON drv options1) a
  = run (insert encodeToBSON drv options2) a
  /\ writes (trace (run (insert encodeToBSON drv options1) a))
     = [Call_collection_insert MONGOC_INSERT_NONE
          (encodeToBSON (insert_document drv a))
          (WriteConcern MONGOC_WRITE_CONCERN_W_DEFAULT)].
Proof.
  split.
  - reflexivity.
  - apply insert_writes.
Qed.

End Methods.

(** ** The methods on examples *)



Lemma update_upsert_wins_witness :
  update_update_flag [("multiple", VBool true); ("upsert", VBool true)]
  = MONGOC_UPDATE_UPSERT.
Proof.
  exact (proj1
           (update_upsert_wins seven_bit_validate scalar_encode
              (fun _ => 0) (fun _ => 0) (failing_driver "") [] []
              [("multiple", VBool true); ("upsert", VBool true)]
              eq_refl eq_refl)).
Defined.

Lemma remove_delete_mode_witness :
  writes
    (trace (run (remove scalar_encode (failing_driver "") []
                   [("justOne", VBool true)]) tt))
  = [Call_collection_delete MONGOC_DELETE_SINGLE_REMOVE (scalar_encode [])
       default_write_concern]
  /\ writes (trace (run (remove scalar_encode (failing_driver "") [] []) tt))
     = [Call_collection_delete MONGOC_DELETE_NONE (scalar_encode [])
          default_write_concern].
Proof.
  split.
  - exact (proj1
             (remove_delete_mode scalar_encode (failing_driver "") []
                [("justOne", VBool true)])
             eq_refl).
  - exact (proj2
             (remove_delete_mode scalar_encode (failing_driver "") [] [])
             (or_introl eq_refl)).
Defined.

Lemma write_failure_is_thrown_witness :
  outcome
    (run (insert scalar_encode (failing_driver "E11000 duplicate key") [])
       [("_id", VInt 1)])
  = Throw (MongoCursorException "E11000 duplicate key")
  /\ outcome
       (run (remove scalar_encode (failing_driver "E11000 duplicate key")
               [] []) tt)
     = Throw (MongoCursorException "E11000 duplicate key")
  /\ outcome
       (run (update seven_bit_validate scalar_encode (fun _ => 0) (fun _ => 0)
               (failing_driver "E11000 duplicate key") [] [] []) tt)
     = Throw (MongoCursorException "E11000 duplicate key").
Proof.
  destruct
    (write_failure_is_thrown seven_bit_validate scalar_encode
       (fun _ => 0) (fun _ => 0) (failing_driver "E11000 duplicate key")
       [("_id", VInt 1)] [] [] [] "E11000 duplicate key")
    as (Hinsert & Hremove & Hupdate).
  split; [|split].
  - exact (proj1 (Hinsert eq_refl)).
  - exact (proj1 (Hremove eq_refl)).
  - exact (proj1 (Hupdate eq_refl)).
Defined.

(** [insert] of a document against a driver that refuses the write: the
    exception leaves the handle, the buffer and the write concern behind. *)
Example insert_refused_leaves_resources :
  let o :=
    run (insert scalar_encode (failing_driver "E11000 duplicate key") [])
      [("_id", VInt 1)] in
  outcome o = Throw (MongoCursorException "E11000 duplicate key")
  /\ live (trace o) = [Collection_handle; Bson_buffer "doc"; Write_concern].
Proof. split; reflexivity. Qed.

(** [insert] of a document without [_id]: the document of the call gets one. *)
Example insert_fresh_id :
  final
    (run (insert scalar_encode
            (succeeding_driver (Oid [ascii_of_nat 84; ascii_of_nat 171]) None)
            [])
       [("x", VInt 1)])
  = [("x", VInt 1); ("_id", VObject "MongoId" [("0", VString "54ab")])].
Proof. reflexivity. Qed.

(** * Further properties of the decoder *)

(** What the dispatch answers for one element: it asks to stop only for a
    rejected string, and it leaves the array it was given in place, with at
    most entries added at the end that do not depend on it. *)
Lemma gLoadsVisitors_stop (validate : string -> bool -> bool)
    (it : bson_iter_t) (key : string) (value : bson_value) (data : Array) :
  fst (gLoadsVisitors validate it key value data)
  = match value with
    | BUtf8 v => negb (validate v true)
    | _ => false
    end.
Proof.
  destruct value as [| |[[len body]|]|[[len body]|]| | | | | | | | | | | | | | | |];
    try reflexivity; simpl.
  - now destruct (validate v_utf8 true).
  - destruct (len <? 5); [reflexivity|].
    now destruct (bson_iter_visit_all validate body Arr.new) as [[|] obj].
  - destruct (len <? 5); [reflexivity|].
    now destruct (bson_iter_visit_all validate body Arr.new) as [[|] obj].
Qed.

Lemma gLoadsVisitors_appends (validate : string -> bool -> bool)
    (it : bson_iter_t) (key : string) (value : bson_value) (data : Array) :
  snd (gLoadsVisitors validate it key value data)
  = (data ++ snd (gLoadsVisitors validate it key value Arr.new))%list.
Proof.
  destruct value as [| |[[len body]|]|[[len body]|]| | | | | | | | | | | | | | | |];
    try reflexivity; simpl; try (now rewrite app_nil_r).
  - destruct (validate v_utf8 true); simpl; [reflexivity|].
    now rewrite app_nil_r.
  - destruct (len <? 5); [simpl; now rewrite app_nil_r|].
    destruct (bson_iter_visit_all validate body Arr.new) as [[|] obj];
      simpl; [now rewrite app_nil_r | reflexivity].
  - destruct (len <? 5); [simpl; now rewrite app_nil_r|].
    destruct (bson_iter_visit_all validate body Arr.new) as [[|] obj];
      simpl; [now rewrite app_nil_r | reflexivity].
Qed.

(** The step of the traversal, with the pair taken apart. *)
Lemma bson_iter_visit_all_step' (validate : string -> bool -> bool)
    (key : string) (value : bson_value) (next : bson_iter_t) (data : Array) :
  bson_iter_visit_all validate (IterElem key value next) data
  = if stops_at validate (key, value)
    then (true,
          if key_rejected validate key then data
          else snd (gLoadsVisitors validate (IterElem key value next) key
                      value data))
    else bson_iter_visit_all validate next
           (snd (gLoadsVisitors validate (IterElem key value next) key value
                   data)).
Proof.
  rewrite bson_iter_visit_all_step. unfold stops_at. simpl fst. simpl snd.
  destruct (key_rejected validate key); [reflexivity|]. simpl orb.
  rewrite <- (gLoadsVisitors_stop validate (IterElem key value next) key value
                data).
  destruct (gLoadsVisitors validate (IterElem key value next) key value data)
    as [[|] data']; reflexivity.
Qed.

(** A rejected string adds nothing. *)
Lemma gLoadsVisitors_stopped (validate : string -> bool -> bool)
    (it : bson_iter_t) (key : string) (value : bson_value) (data : Array) :
  fst (gLoadsVisitors validate it key value data) = true ->
  snd (gLoadsVisitors validate it key value data) = data.
Proof.
  rewrite gLoadsVisitors_stop.
  destruct value; try discriminate. simpl.
  now destruct (validate v_utf8 true).
Qed.

(** X1.  The traversal of a document reports an early stop exactly when
    one of the elements of this level has a rejected key or is a rejected
    string; what is inside an embedded document or array never stops the
    traversal of the parent, and no visitor of the table asks to stop. *)
Theorem bson_iter_visit_all_stops (validate : string -> bool -> bool)
    (iter : bson_iter_t) (data : Array) :
  fst (bson_iter_visit_all validate iter data)
  = existsb (stops_at validate) (elements iter).
Proof.
  revert data.
  induction iter as [| |key value next IH]; intros data; try reflexivity.
  rewrite bson_iter_visit_all_step'. simpl elements. simpl existsb.
  destruct (stops_at validate (key, value)); [reflexivity|].
  simpl orb. apply IH.
Qed.

(** X2.  The traversal only appends: the array it is given stays in front,
    unchanged, and the entries added after it do not depend on it. *)
Theorem bson_iter_visit_all_appends (validate : string -> bool -> bool)
    (iter : bson_iter_t) (data : Array) :
  snd (bson_iter_visit_all validate iter data)
  = (data ++ snd (bson_iter_visit_all validate iter Arr.new))%list.
Proof.
  revert data.
  induction iter as [| |key value next IH]; intros data;
    try (simpl; now rewrite app_nil_r).
  rewrite !bson_iter_visit_all_step'.
  destruct (stops_at validate (key, value)).
  - simpl snd. destruct (key_rejected validate key).
    + now rewrite app_nil_r.
    + apply gLoadsVisitors_appends.
  - rewrite IH.
    rewrite (IH (snd (gLoadsVisitors validate _ key value Arr.new))).
    rewrite gLoadsVisitors_appends. now rewrite app_assoc.
Qed.

(** The key an element leaves behind when the traversal does not stop at
    it. *)
Lemma gLoadsVisitors_keys (validate : string -> bool -> bool)
    (it : bson_iter_t) (key : string) (value : bson_value) :
  stops_at validate (key, value) = false ->
  map fst (snd (gLoadsVisitors validate it key value Arr.new))
  = if emits validate value then [key] else [].
Proof.
  unfold stops_at. simpl fst. simpl snd. intros H.
  apply orb_false_iff in H. destruct H as [_ H].
  destruct value as [| |[[len body]|]|[[len body]|]| | | | | | | | | | | | | | | |];
    try reflexivity; simpl.
  - apply negb_false_iff in H. now rewrite H.
  - destruct (len <? 5); [reflexivity|].
    now destruct (bson_iter_visit_all validate body Arr.new) as [[|] obj].
  - destruct (len <? 5); [reflexivity|].
    now destruct (bson_iter_visit_all validate body Arr.new) as [[|] obj].
Qed.

(** X3.  The keys of the decoded array are, in the order of the document,
    the keys of the elements that come before the first element the
    traversal stops at and that leave an entry; elements are neither
    reordered nor merged (a key that occurs twice is kept twice). *)
Theorem bson_iter_visit_all_keys (validate : string -> bool -> bool)
    (iter : bson_iter_t) (data : Array) :
  map fst (snd (bson_iter_visit_all validate iter data))
  = (map fst data
     ++ map fst
          (filter (fun kv => emits validate (snd kv))
             (visited validate (elements iter))))%list.
Proof.
  revert data.
  induction iter as [| |key value next IH]; intros data;
    try (simpl; now rewrite app_nil_r).
  rewrite bson_iter_visit_all_step'. simpl elements. simpl visited.
  destruct (stops_at validate (key, value)) eqn:Hstop.
  - simpl snd. simpl filter. simpl map. rewrite app_nil_r.
    destruct (key_rejected validate key) eqn:Hkey; [reflexivity|].
    rewrite gLoadsVisitors_stopped; [reflexivity|].
    rewrite gLoadsVisitors_stop. unfold stops_at in Hstop.
    simpl in Hstop. now rewrite Hkey in Hstop.
  - rewrite IH, gLoadsVisitors_appends, map_app.
    rewrite (gLoadsVisitors_keys validate _ key value Hstop).
    simpl filter. rewrite <- app_assoc.
    now destruct (emits validate value).
Qed.

(** X4.  A failure of [bson_iter_next] in the middle of a document is not
    told apart from the regular end: the traversal gives the same signal
    and the same array as on the document that ends where the failure is,
    and [cbson_loads] returns this array without throwing. *)
Theorem bson_iter_visit_all_corrupt (validate : string -> bool -> bool)
    (iter : bson_iter_t) (data : Array) (len : Z) :
  bson_iter_visit_all validate iter data
  = bson_iter_visit_all validate (sealed iter) data
  /\ cbson_loads validate (Some (Bson len iter))
     = cbson_loads validate (Some (Bson len (sealed iter))).
Proof.
  assert (H : forall d,
    bson_iter_visit_all validate iter d
    = bson_iter_visit_all validate (sealed iter) d).
  { induction iter as [| |key value next IH]; intros d; try reflexivity.
    simpl sealed. rewrite !bson_iter_visit_all_step.
    destruct (key_rejected validate key); [reflexivity|].
    assert (Hg : gLoadsVisitors validate (IterElem key value next) key value d
                 = gLoadsVisitors validate (IterElem key value (sealed next))
                     key value d).
    { now destruct value as [| |[c|]|[c|]| | | | | | | | | | | | | | | |]. }
    rewrite Hg.
    destruct (gLoadsVisitors validate _ key value d) as [[|] d'];
      [reflexivity | apply IH]. }
  split; [apply H|].
  unfold cbson_loads, bson_iter_init.
  destruct (len <? 5); [reflexivity|]. now rewrite H.
Qed.

Lemma bson_iter_visit_all_iter_of (validate : string -> bool -> bool)
    (before : list (string * bson_value)) (tail : bson_iter_t) (data : Array) :
  snd (bson_iter_visit_all validate (iter_of before tail) data)
  = if existsb (stops_at validate) before
    then snd (bson_iter_visit_all validate (iter_of before IterEnd) data)
    else snd (bson_iter_visit_all validate tail
                (snd (bson_iter_visit_all validate (iter_of before IterEnd)
                        data))).
Proof.
  revert data. induction before as [|[key value] before IH]; intros data.
  - reflexivity.
  - simpl iter_of. rewrite !bson_iter_visit_all_step'. simpl existsb.
    destruct (stops_at validate (key, value)); simpl orb.
    + simpl snd. destruct (key_rejected validate key); [reflexivity|].
      now destruct value as [| |[c|]|[c|]| | | | | | | | | | | | | | | |].
    + assert (Hg : forall t,
        snd (gLoadsVisitors validate (IterElem key value (iter_of before t))
               key value data)
        = snd (gLoadsVisitors validate
                 (IterElem key value (iter_of before IterEnd)) key value data)).
      { intros t.
        now destruct value as [| |[c|]|[c|]| | | | | | | | | | | | | | | |]. }
      rewrite (Hg tail). apply IH.
Qed.

(** X5.  What follows an element the traversal stops at is dropped without
    a word: [cbson_loads] returns what it returns on the document that ends
    just before this element, whatever comes after it. *)
Theorem cbson_loads_stops_silently (validate : string -> bool -> bool)
    (before : list (string * bson_value)) (kv : string * bson_value)
    (next : bson_iter_t) (len : Z) :
  stops_at validate kv = true ->
  cbson_loads validate (Some (Bson len (iter_of (before ++ [kv]) next)))
  = cbson_loads validate (Some (Bson len (iter_of before IterEnd))).
Proof.
  intros Hstop. unfold cbson_loads, bson_iter_init.
  destruct (len <? 5); [reflexivity|]. f_equal.
  assert (Happ : forall l t,
    iter_of (before ++ l) t = iter_of before (iter_of l t)).
  { intros l t. induction before as [|[k v] before IH]; simpl;
      [reflexivity | now rewrite IH]. }
  rewrite Happ. rewrite bson_iter_visit_all_iter_of.
  destruct (existsb (stops_at validate) before); [reflexivity|].
  destruct kv as [key value]. simpl iter_of.
  rewrite bson_iter_visit_all_step', Hstop. simpl snd.
  destruct (key_rejected validate key) eqn:Hkey; [reflexivity|].
  apply gLoadsVisitors_stopped. rewrite gLoadsVisitors_stop.
  unfold stops_at in Hstop. simpl in Hstop. now rewrite Hkey in Hstop.
Qed.

Lemma cbson_loads_stops_silently_witness :
  cbson_loads seven_bit_validate
    (Some (Bson 40
             (iter_of
                ([("a", BInt32 1)]
                 ++ [(String (ascii_of_nat 255) EmptyString, BNull)])
                (IterElem "b" (BInt32 2) IterEnd))))
  = Return [("a", VInt 1)].
Proof.
  exact (cbson_loads_stops_silently seven_bit_validate [("a", BInt32 1)]
           (String (ascii_of_nat 255) EmptyString, BNull)
           (IterElem "b" (BInt32 2) IterEnd) 40 eq_refl).
Defined.

(** X6.  An embedded array is decoded as an embedded document is: turning
    every array of a document, at any depth, into a document of the same
    child changes neither the signal nor the decoded array.  The keys of an
    array are taken as they are, whether or not they count 0, 1, 2, ... *)
Theorem bson_array_as_document (validate : string -> bool -> bool)
    (iter : bson_iter_t) (data : Array) :
  bson_iter_visit_all validate (documents_iter iter) data
  = bson_iter_visit_all validate iter data.
Proof.
  remember (weight_iter iter) as n eqn:Hn.
  assert (Hle : (weight_iter iter <= n)%nat) by lia. clear Hn.
  revert iter data Hle.
  induction n as [|n IH]; intros iter data Hle.
  - destruct iter; [reflexivity | reflexivity | simpl in Hle; lia].
  - destruct iter as [| |key value next]; try reflexivity.
    simpl in Hle.
    assert (Hnext : forall d,
      bson_iter_visit_all validate (documents_iter next) d
      = bson_iter_visit_all validate next d).
    { intros d. apply IH. lia. }
    simpl documents_iter.
    assert (Hchild : forall len body,
      (weight_iter body <= n)%nat ->
      bson_iter_visit_all validate
        (IterElem key (BDocument (Some (Bson len (documents_iter body))))
           (documents_iter next)) data
      = bson_iter_visit_all validate
          (IterElem key (BDocument (Some (Bson len body))) next) data).
    { intros len body Hbody. rewrite !bson_iter_visit_all_step.
      destruct (key_rejected validate key); [reflexivity|].
      unfold gLoadsVisitors, cbson_loads_visit_document, bson_iter_init.
      destruct (len <? 5); [apply Hnext|].
      rewrite (IH body Arr.new Hbody).
      destruct (bson_iter_visit_all validate body Arr.new) as [[|] obj];
        apply Hnext. }
    destruct value as [| |[[len body]|]|[[len body]|]| | | | | | | | | | | | | | | |];
      simpl documents_value;
      try (apply Hchild; simpl in Hle; lia);
      rewrite !bson_iter_visit_all_step;
      (destruct (key_rejected validate key); [reflexivity|]);
      unfold gLoadsVisitors;
      try match goal with
          | |- context [validate ?v true] => destruct (validate v true)
          end;
      try apply Hnext; try reflexivity.
Qed.

(** X7.  Decoding is compositional: when the child of an embedded document
    or array initialises and its traversal is not stopped, the entry of the
    parent holds what [cbson_loads] returns on the child alone: this array
    when it has an entry, and null when it has none (an empty embedded
    document or array is decoded to null, not to an empty array). *)
Theorem cbson_loads_nested (validate : string -> bool -> bool)
    (key : string) (child : bson_t) (it : bson_iter_t) (len : Z) :
  bson_iter_init (Some child) = Some it ->
  fst (bson_iter_visit_all validate it Arr.new) = false ->
  key_rejected validate key = false ->
  5 <= len ->
  exists obj : Array,
    let stored :=
      match obj with
      | [] => VNull
      | _ :: _ => VArray obj
      end in
    cbson_loads validate (Some child) = Return obj
    /\ cbson_loads validate
         (Some (Bson len (IterElem key (BDocument (Some child)) IterEnd)))
       = Return [(key, stored)]
    /\ cbson_loads validate
         (Some (Bson len (IterElem key (BArray (Some child)) IterEnd)))
       = Return [(key, stored)].
Proof.
  intros Hinit Hgo Hkey Hlen.
  exists (snd (bson_iter_visit_all validate it Arr.new)).
  cbv zeta. unfold cbson_loads at 1. rewrite Hinit. split; [reflexivity|].
  assert (H5 : (len <? 5) = false) by (apply Z.ltb_ge; lia).
  split; unfold cbson_loads, bson_iter_init at 1; rewrite H5;
    rewrite bson_iter_visit_all_step, Hkey; unfold gLoadsVisitors,
      cbson_loads_visit_document, cbson_loads_visit_array;
    rewrite Hinit;
    destruct (bson_iter_visit_all validate it Arr.new) as [stopped obj];
    simpl in Hgo; subst stopped; reflexivity.
Qed.

Lemma cbson_loads_nested_witness :
  cbson_loads seven_bit_validate
    (Some (Bson 30
             (IterElem "point"
                (BDocument
                   (Some (Bson 19
                            (IterElem "x" (BInt32 3)
                               (IterElem "y" (BInt32 4) IterEnd)))))
                IterEnd)))
  = Return [("point", VArray [("x", VInt 3); ("y", VInt 4)])]
  /\ cbson_loads seven_bit_validate
       (Some (Bson 13
                (IterElem "empty" (BArray (Some (Bson 5 IterEnd))) IterEnd)))
     = Return [("empty", VNull)].
Proof.
  split.
  - destruct
      (cbson_loads_nested seven_bit_validate "point"
         (Bson 19 (IterElem "x" (BInt32 3) (IterElem "y" (BInt32 4) IterEnd)))
         (IterElem "x" (BInt32 3) (IterElem "y" (BInt32 4) IterEnd)) 30
         eq_refl eq_refl eq_refl)
      as (obj & Hchild & Hdoc & _); [lia|].
    injection Hchild as <-. exact Hdoc.
  - destruct
      (cbson_loads_nested seven_bit_validate "empty" (Bson 5 IterEnd) IterEnd
         13 eq_refl eq_refl eq_refl)
      as (obj & Hchild & _ & Harr); [lia|].
    injection Hchild as <-. exact Harr.
Defined.

(** * Further properties of the visitors *)

(** X8.  The date visitor builds a [MongoDate] from seconds and
    microseconds that together are the milliseconds of the element: seconds
    * 1000000 + microseconds = milliseconds * 1000.  The microseconds are a
    multiple of 1000 below one second in size; they are negative, not
    borrowed from the seconds, for a date before the epoch that is not on a
    whole second. *)
Theorem cbson_loads_visit_date_time_split (key : string)
    (msec_since_epoch : Z) (output : Array) :
  exists sec usec : Z,
    cbson_loads_visit_date_time key msec_since_epoch output
    = (false,
       Arr.add output key
         (VObject "MongoDate" [("0", VInt sec); ("1", VInt usec)]))
    /\ sec * 1000000 + usec = msec_since_epoch * 1000
    /\ -1000000 < usec < 1000000
    /\ (exists ms, usec = 1000 * ms)
    /\ (0 <= msec_since_epoch -> 0 <= sec /\ 0 <= usec)
    /\ (msec_since_epoch <= 0 -> sec <= 0 /\ usec <= 0).
Proof.
  exists (Z.quot msec_since_epoch 1000), (Z.rem msec_since_epoch 1000 * 1000).
  pose proof (Z.quot_rem' msec_since_epoch 1000) as Hqr.
  pose proof (Z.rem_bound_abs msec_since_epoch 1000 ltac:(lia)) as Hb.
  split; [reflexivity|].
  split; [lia|]. split; [lia|].
  split; [exists (Z.rem msec_since_epoch 1000); lia|].
  split; intros H.
  - pose proof (Z.rem_nonneg msec_since_epoch 1000 ltac:(lia) H).
    pose proof (Z.quot_pos msec_since_epoch 1000 H ltac:(lia)). lia.
  - pose proof (Z.rem_nonpos msec_since_epoch 1000 ltac:(lia) H).
    assert (Z.quot msec_since_epoch 1000 <= 0); [|lia].
    rewrite <- (Z.opp_involutive msec_since_epoch), Z.quot_opp_l by lia.
    pose proof (Z.quot_pos (- msec_since_epoch) 1000 ltac:(lia) ltac:(lia)).
    lia.
Qed.

(** A date one millisecond before the epoch. *)
Example cbson_loads_visit_date_time_before_epoch :
  cbson_loads_visit_date_time "d" (-1) Arr.new
  = (false, [("d", VObject "MongoDate" [("0", VInt 0); ("1", VInt (-1000))])]).
Proof. reflexivity. Qed.

Lemma c_str_prefix (s : string) :
  exists rest,
    s = (c_str s ++ rest)%string
    /\ (rest = "" \/ exists after, rest = String zero after).
Proof.
  induction s as [|c s (rest & IH & Hrest)]; simpl.
  - exists "". split; [reflexivity | now left].
  - destruct (Ascii.eqb_spec c zero) as [->|Hc].
    + exists (String zero s). split; [reflexivity|]. right. now exists s.
    + exists rest. split; [simpl; now rewrite <- IH | exact Hrest].
Qed.

Lemma c_str_no_nul (s : string) : has_nul (c_str s) = false.
Proof.
  induction s as [|c s IH]; simpl; [reflexivity|].
  destruct (Ascii.eqb c zero) eqn:Hc; simpl; [reflexivity|].
  now rewrite Hc.
Qed.

Lemma c_str_id (s : string) : has_nul s = false -> c_str s = s.
Proof.
  induction s as [|c s IH]; simpl; [reflexivity|].
  intros H. apply orb_false_iff in H. destruct H as [Hc Hs].
  rewrite Hc. now rewrite IH.
Qed.

Lemma c_str_shorter (s : string) :
  has_nul s = true -> (String.length (c_str s) < String.length s)%nat.
Proof.
  induction s as [|c s IH]; simpl; [discriminate|].
  destruct (Ascii.eqb c zero); simpl; intros H; [lia|].
  apply IH in H. lia.
Qed.

(** X9.  The string visitor reads the value as a C string and does not use
    its length: what it stores is the part of the value before its first
    NUL, that is, the stored string holds no NUL and what it leaves out of
    the value is nothing or begins with a NUL.  A value without NUL is
    stored whole; a value with a NUL is stored cut short. *)
Theorem cbson_loads_visit_utf8_cut (key : string) (v_utf8 : string)
    (output : Array) :
  exists stored rest : string,
    cbson_loads_visit_utf8 key v_utf8 output
    = (false, Arr.add output key (VString stored))
    /\ v_utf8 = (stored ++ rest)%string
    /\ has_nul stored = false
    /\ (rest = "" \/ exists after, rest = String zero after)
    /\ (if has_nul v_utf8
        then (String.length stored < String.length v_utf8)%nat
        else stored = v_utf8).
Proof.
  destruct (c_str_prefix v_utf8) as (rest & Hrest & Hcut).
  exists (c_str v_utf8), rest.
  split; [reflexivity|]. split; [exact Hrest|].
  split; [apply c_str_no_nul|]. split; [exact Hcut|].
  destruct (has_nul v_utf8) eqn:Hnul.
  - now apply c_str_shorter.
  - now apply c_str_id.
Qed.

(** A string with a NUL in the middle loses its end; the code visitor, which
    uses the length, keeps it. *)
Example cbson_loads_visit_utf8_nul :
  cbson_loads_visit_utf8 "s" (String "a" (String zero "b")) Arr.new
  = (false, [("s", VString "a")])
  /\ cbson_loads_visit_code "s" (String "a" (String zero "b")) Arr.new
     = (false,
        [("s", VObject "MongoCode"
                 [("0", VString (String "a" (String zero "b")))])]).
Proof. split; reflexivity. Qed.

Lemma no_slash_app (r o : string) :
  no_slash (r ++ String "/" o) = false.
Proof.
  unfold no_slash. induction r as [|c r IH]; simpl; [reflexivity|].
  rewrite IH. apply andb_false_r.
Qed.

Lemma regex_string_inj (r1 r2 o1 o2 : string) :
  no_slash o1 = true ->
  no_slash o2 = true ->
  (r1 ++ String "/" o1)%string = (r2 ++ String "/" o2)%string ->
  r1 = r2 /\ o1 = o2.
Proof.
  intros H1 H2. revert r2.
  induction r1 as [|c r1 IH]; intros [|c' r2] H; simpl in H.
  - injection H as H. now split.
  - injection H as _ H. rewrite H, no_slash_app in H1. discriminate.
  - injection H as _ H. rewrite <- H, no_slash_app in H2. discriminate.
  - injection H as Hc H. destruct (IH r2 H) as [Hr Ho].
    split; [now rewrite Hc, Hr | exact Ho].
Qed.

(** X10.  The regular-expression visitor stores a [MongoRegex] made from
    the one string [/pattern/options].  As long as the options hold no [/],
    this string tells pattern and options apart: two elements that decode
    to the same [MongoRegex] have the same pattern and the same options. *)
Theorem cbson_loads_visit_regex_inj (key : string)
    (regex1 options1 regex2 options2 : string) (output : Array) :
  no_slash options1 = true ->
  no_slash options2 = true ->
  cbson_loads_visit_regex key regex1 options1 output
  = (false,
     Arr.add output key
       (VObject "MongoRegex"
          [("0", VString (String "/" (regex1 ++ String "/" options1)))]))
  /\ (cbson_loads_visit_regex key regex1 options1 output
      = cbson_loads_visit_regex key regex2 options2 output ->
      regex1 = regex2 /\ options1 = options2).
Proof.
  intros H1 H2. split; [reflexivity|].
  intros H. unfold cbson_loads_visit_regex in H.
  injection H as H. apply app_inv_head in H.
  injection H as H. simpl in H.
  now apply regex_string_inj.
Qed.

Lemma cbson_loads_visit_regex_inj_witness :
  cbson_loads_visit_regex "r" "^a.*" "i" Arr.new
  = (false, [("r", VObject "MongoRegex" [("0", VString "/^a.*/i")])]).
Proof.
  exact (proj1
           (cbson_loads_visit_regex_inj "r" "^a.*" "i" "^b" "m" Arr.new
              eq_refl eq_refl)).
Defined.

(** With a [/] in the options two different elements decode alike. *)
Example cbson_loads_visit_regex_collision :
  cbson_loads_visit_regex "r" "a/" "" Arr.new
  = cbson_loads_visit_regex "r" "a" "/" Arr.new.
Proof. reflexivity. Qed.

Lemma hex_digit_inj (n m : N) :
  (n < 16)%N -> (m < 16)%N -> hex_digit n = hex_digit m -> n = m.
Proof.
  intros Hn Hm H. apply (f_equal N_of_ascii) in H. unfold hex_digit in H.
  destruct (N.ltb_spec n 10), (N.ltb_spec m 10);
    rewrite !N_ascii_embedding in H by lia; lia.
Qed.

Lemma hex_of_bytes_inj (l1 l2 : list ascii) :
  hex_of_bytes l1 = hex_of_bytes l2 -> l1 = l2.
Proof.
  revert l2. induction l1 as [|b1 l1 IH]; intros [|b2 l2] H; simpl in H;
    try discriminate; [reflexivity|].
  injection H as Hhi Hlo H.
  pose proof (N_ascii_bounded b1) as Hb1.
  pose proof (N_ascii_bounded b2) as Hb2.
  apply hex_digit_inj in Hhi;
    [|apply N.Div0.div_lt_upper_bound; lia
     |apply N.Div0.div_lt_upper_bound; lia].
  apply hex_digit_inj in Hlo; [|apply N.mod_lt; lia|apply N.mod_lt; lia].
  assert (Hb : N_of_ascii b1 = N_of_ascii b2).
  { rewrite (N.div_mod (N_of_ascii b1) 16), (N.div_mod (N_of_ascii b2) 16)
      by lia.
    now rewrite Hhi, Hlo. }
  f_equal; [|now apply IH].
  rewrite <- (ascii_N_embedding b1), <- (ascii_N_embedding b2).
  now rewrite Hb.
Qed.

Lemma hex_of_bytes_length (l : list ascii) :
  String.length (hex_of_bytes l) = (2 * List.length l)%nat.
Proof. induction l as [|b l IH]; simpl; [reflexivity | rewrite IH; lia]. Qed.

Lemma hex_value_digit (n : N) :
  (n < 16)%N -> hex_value (hex_digit n) = Some n.
Proof.
  intros Hn. unfold hex_value, hex_digit.
  destruct (N.ltb_spec n 10); rewrite N_ascii_embedding by lia.
  - destruct (N.leb_spec 48 (48 + n)); [|lia].
    destruct (N.leb_spec (48 + n) 57); [|lia]. cbn [andb]. f_equal. lia.
  - destruct (N.leb_spec (87 + n) 57); [lia|]. rewrite andb_false_r.
    destruct (N.leb_spec 97 (87 + n)); [|lia].
    destruct (N.leb_spec (87 + n) 102); [|lia]. cbn [andb]. f_equal. lia.
Qed.

Lemma bytes_of_hex_of_bytes (l : list ascii) :
  bytes_of_hex (hex_of_bytes l) = Some l.
Proof.
  induction l as [|b l IH]; [reflexivity|].
  pose proof (N_ascii_bounded b) as Hb.
  simpl hex_of_bytes. cbn [bytes_of_hex].
  rewrite !hex_value_digit, IH;
    [|apply N.mod_lt; lia|apply N.Div0.div_lt_upper_bound; lia].
  rewrite <- N.div_mod by lia. now rewrite ascii_N_embedding.
Qed.

(** X11.  The object-id visitor stores a [MongoId] made from one string, and
    the database-pointer visitor a [MongoDBRef] made from the collection
    name and one string; this string is the id in lower-case hexadecimal
    digits, two per byte (24 for its twelve bytes): read back as such it
    gives the bytes of the id.  So two elements that decode to the same
    value carry the same id (and, for a pointer, the same collection
    name). *)
Theorem cbson_loads_visit_oid_inj (key : string) (oid1 oid2 : bson_oid_t)
    (collection1 collection2 : string) (output : Array) :
  exists id : string,
    cbson_loads_visit_oid key oid1 output
    = (false, Arr.add output key (VObject "MongoId" [("0", VString id)]))
    /\ cbson_loads_visit_dbpointer key collection1 oid1 output
       = (false,
          Arr.add output key
            (VObject "MongoDBRef"
               [("0", VString collection1); ("1", VString id)]))
    /\ bytes_of_hex id = Some (oid_bytes oid1)
    /\ String.length id = (2 * List.length (oid_bytes oid1))%nat
    /\ (cbson_loads_visit_oid key oid1 output
        = cbson_loads_visit_oid key oid2 output ->
        oid1 = oid2)
    /\ (cbson_loads_visit_dbpointer key collection1 oid1 output
        = cbson_loads_visit_dbpointer key collection2 oid2 output ->
        collection1 = collection2 /\ oid1 = oid2).
Proof.
  assert (Hinj : bson_oid_to_string oid1 = bson_oid_to_string oid2 ->
                 oid1 = oid2).
  { destruct oid1 as [l1], oid2 as [l2]. unfold bson_oid_to_string. simpl.
    intros H. f_equal. now apply hex_of_bytes_inj. }
  exists (bson_oid_to_string oid1).
  split; [reflexivity|]. split; [reflexivity|].
  split; [apply bytes_of_hex_of_bytes|].
  split; [apply hex_of_bytes_length|]. split.
  - intros H. unfold cbson_loads_visit_oid in H.
    injection H as H. apply app_inv_head in H. injection H as H.
    now apply Hinj.
  - intros H. unfold cbson_loads_visit_dbpointer in H.
    injection H as H. apply app_inv_head in H. injection H as Hc H.
    split; [exact Hc | now apply Hinj].
Qed.

(** * Further properties of the reader *)

Lemma byte_at_range (s : string) (n : nat) : 0 <= byte_at s n < 256.
Proof.
  unfold byte_at. destruct (String.get n s) as [c|]; [|lia].
  pose proof (N_ascii_bounded c). lia.
Qed.

Lemma le_uint32_range (s : string) : 0 <= le_uint32 s < 2 ^ 32.
Proof.
  unfold le_uint32.
  pose proof (byte_at_range s 0). pose proof (byte_at_range s 1).
  pose proof (byte_at_range s 2). pose proof (byte_at_range s 3). lia.
Qed.

Lemma to_int32_negative (u : Z) :
  2 ^ 31 <= u < 2 ^ 32 -> to_int32 u < 0.
Proof.
  unfold to_int32. intros H. rewrite Z.mod_small by lia.
  destruct (Z.ltb_spec u (2 ^ 31)); lia.
Qed.

(** The reader, by cases on the length [n] the buffer declares. *)
Lemma bson_reader_read_cases (bson_elements : string -> bson_iter_t)
    (buf : string) :
  size buf <= INT32_MAX ->
  let n := le_uint32 buf in
  bson_reader_read bson_elements buf
  = if (5 <=? n) && (n <=? size buf)
       && (byte_at buf (Z.to_nat (n - 1)) =? 0)
    then Some (Bson n (bson_elements (substring 0 (Z.to_nat n) buf)))
    else None.
Proof.
  intros Hmax n. pose proof (le_uint32_range buf) as Hn. fold n in Hn.
  pose proof (size_nonneg buf) as Hsize.
  unfold bson_reader_read. fold n.
  unfold INT32_MAX in *.
  destruct (Z.ltb_spec (0 + 4) (size buf)) as [Hbuf|Hbuf].
  - destruct (Z.ltb_spec n (2 ^ 31)) as [Hlow|Hhigh].
    + rewrite (to_int32_small n) by (unfold INT32_MAX; lia).
      destruct (Z.ltb_spec n 5) as [H5|H5].
      { destruct (Z.leb_spec 5 n); [lia | reflexivity]. }
      rewrite Z.sub_0_r, to_int32_small by (unfold INT32_MAX; lia).
      destruct (Z.leb_spec 5 n); [|lia]. simpl andb.
      destruct (Z.ltb_spec (size buf) n) as [Hlong|Hfit].
      { destruct (Z.leb_spec n (size buf)); [lia | reflexivity]. }
      destruct (Z.leb_spec n (size buf)); [|lia]. simpl andb.
      unfold bson_init_static, INT32_MAX.
      destruct (Z.ltb_spec n 5); [lia|].
      destruct (Z.ltb_spec (2 ^ 31 - 1) n); [lia|]. simpl orb. cbv iota.
      rewrite Z.eqb_refl. simpl negb. cbv iota.
      now destruct (byte_at buf (Z.to_nat (n - 1)) =? 0).
    + pose proof (to_int32_negative n ltac:(lia)) as Hneg.
      destruct (Z.ltb_spec (to_int32 n) 5); [|lia].
      destruct (Z.leb_spec n (size buf)); [lia|].
      now rewrite andb_false_r.
  - destruct (Z.leb_spec 5 n); [|reflexivity].
    destruct (Z.leb_spec n (size buf)); [lia | reflexivity].
Qed.

(** X12.  When [cbson_loads_from_string] decodes and when it throws, for a
    buffer of at most [INT_MAX] bytes whose first four bytes declare [n]:
    it decodes the first [n] bytes when [n] is at least 5 and at most the
    size of the buffer and the byte at [n - 1] is NUL; in every other case
    (a declared length under 5, a declared length beyond the buffer, a
    missing final NUL) it throws "Unexpected end of BSON". *)
Theorem cbson_loads_from_string_cases (validate : string -> bool -> bool)
    (bson_elements : string -> bson_iter_t) (buf : string) :
  size buf <= INT32_MAX ->
  let n := le_uint32 buf in
  cbson_loads_from_string validate bson_elements buf
  = if (5 <=? n) && (n <=? size buf)
       && (byte_at buf (Z.to_nat (n - 1)) =? 0)
    then Return
           (snd (bson_iter_visit_all validate
                   (bson_elements (substring 0 (Z.to_nat n) buf)) Arr.new))
    else Throw (MongoException
                  "Unexpected end of BSON. Input document is likely corrupted!").
Proof.
  intros Hmax n. unfold cbson_loads_from_string.
  rewrite bson_reader_read_cases by exact Hmax. fold n.
  destruct (Z.leb_spec 5 n) as [H5|H5]; [|reflexivity].
  simpl andb.
  destruct ((n <=? size buf) && (byte_at buf (Z.to_nat (n - 1)) =? 0));
    [|reflexivity].
  unfold cbson_loads, bson_iter_init.
  destruct (Z.ltb_spec n 5); [lia | reflexivity].
Qed.

Lemma cbson_loads_from_string_cases_witness :
  cbson_loads_from_string seven_bit_validate no_elements null_document
  = Return []
  /\ cbson_loads_from_string seven_bit_validate no_elements
       (substring 0 7 null_document ++ "x")
     = Throw (MongoException
                "Unexpected end of BSON. Input document is likely corrupted!").
Proof.
  split.
  - refine (cbson_loads_from_string_cases seven_bit_validate no_elements
              null_document _).
    unfold size, INT32_MAX. simpl. lia.
  - refine (cbson_loads_from_string_cases seven_bit_validate no_elements
              (substring 0 7 null_document ++ "x") _).
    unfold size, INT32_MAX. simpl. lia.
Defined.

Lemma substring_append (d extra : string) :
  substring 0 (String.length d) (d ++ extra) = d.
Proof. induction d as [|c d IH]; simpl; [now destruct extra | now rewrite IH]. Qed.

Lemma substring_whole (d : string) : substring 0 (String.length d) d = d.
Proof. induction d as [|c d IH]; simpl; [reflexivity | now rewrite IH]. Qed.

(** X13.  Only the first document of the buffer is decoded: bytes that
    follow a document that is framed and ends in NUL are not looked at, and
    the call returns what it returns on the document alone. *)
Theorem cbson_loads_from_string_trailing (validate : string -> bool -> bool)
    (bson_elements : string -> bson_iter_t) (d extra : string) :
  framed d ->
  byte_at d (Z.to_nat (size d - 1)) = 0 ->
  size (d ++ extra) <= INT32_MAX ->
  cbson_loads_from_string validate bson_elements (d ++ extra)
  = cbson_loads_from_string validate bson_elements d
  /\ cbson_loads_from_string validate bson_elements d
     = Return
         (snd (bson_iter_visit_all validate (bson_elements d) Arr.new)).
Proof.
  intros [Hsize Hlen] Hnul Hmax.
  pose proof (size_nonneg extra) as Hextra.
  rewrite size_append in Hmax.
  assert (H5 : (size d <? 5) = false) by (apply Z.ltb_ge; lia).
  assert (Hd : bson_reader_read bson_elements d
               = Some (Bson (size d) (bson_elements d))).
  { rewrite bson_reader_read_cases by lia. cbv zeta. rewrite Hlen.
    destruct (Z.leb_spec 5 (size d)); [|lia].
    rewrite Z.leb_refl, Hnul. simpl.
    unfold size. rewrite Nat2Z.id. now rewrite substring_whole. }
  assert (Hboth : bson_reader_read bson_elements (d ++ extra)
                  = Some (Bson (size d) (bson_elements d))).
  { rewrite bson_reader_read_cases by (rewrite size_append; lia).
    cbv zeta. rewrite le_uint32_append by lia. rewrite Hlen, size_append.
    destruct (Z.leb_spec 5 (size d)); [|lia].
    destruct (Z.leb_spec (size d) (size d + size extra)); [|lia].
    rewrite byte_at_append by lia. rewrite Hnul. simpl.
    unfold size. rewrite Nat2Z.id. now rewrite substring_append. }
  unfold cbson_loads_from_string. rewrite Hd, Hboth.
  split; [reflexivity|].
  unfold cbson_loads, bson_iter_init. now rewrite H5.
Qed.

Lemma cbson_loads_from_string_trailing_witness :
  cbson_loads_from_string seven_bit_validate no_elements
    (null_document ++ "trailing bytes")
  = cbson_loads_from_string seven_bit_validate no_elements null_document.
Proof.
  refine (proj1 (cbson_loads_from_string_trailing seven_bit_validate
                   no_elements null_document "trailing bytes" _ _ _)).
  - unfold framed, size, INT32_MAX. simpl. split; [lia | reflexivity].
  - reflexivity.
  - unfold size, INT32_MAX. simpl. lia.
Defined.

(** * Further properties of the methods *)

Section MoreMethods.

Variable validate : string -> bool -> bool.
Variable encodeToBSON : Array -> bson_t.
Variable double_toInt64 : double -> Z.
Variable string_toInt64 : string -> Z.

(** X14.  The only value [insert] and [remove] ever return is [true]: a
    write that the driver reports as failed ends in an exception, never in
    [false]. *)
Theorem insert_remove_return_true (drv : driver)
    (a criteria options : Array) (v : Variant) :
  (outcome (run (insert encodeToBSON drv options) a) = Return v ->
   v = VBool true)
  /\ (outcome (run (remove encodeToBSON drv criteria options) tt) = Return v ->
      v = VBool true).
Proof.
  split.
  - rewrite run_insert. cbv zeta.
    destruct (mongoc_collection_insert drv _ _ _) as [[|] msg];
      unfold outcome; simpl; intros H; [now injection H | discriminate].
  - rewrite run_remove. cbv zeta.
    destruct (mongoc_collection_delete drv _ _ _) as [[|] msg];
      unfold outcome; simpl; intros H; [now injection H | discriminate].
Qed.

Lemma final_insert (drv : driver) (options a : Array) :
  final (run (insert encodeToBSON drv options) a) = insert_document drv a.
Proof.
  rewrite run_insert. cbv zeta.
  now destruct (mongoc_collection_insert drv _ _ _) as [[|] msg].
Qed.

Lemma insert_document_has_id (drv : driver) (a : Array) :
  Arr.exists_ (insert_document drv a) "_id" = true.
Proof.
  unfold insert_document. destruct (Arr.exists_ a "_id") eqn:H; [exact H|].
  unfold Arr.exists_, Arr.add. rewrite existsb_app. simpl.
  now rewrite orb_true_r.
Qed.

(** C2.  The [_id] that [insert] adds does not reach the caller.  For a
    document without [_id], the method adds the [MongoId] to its own copy
    and submits the encoding of that copy; the caller is left with the
    document it passed, still without [_id], and with [true] or an
    exception: nothing it receives holds the id. *)
Theorem insert_id_not_observable (drv : driver) (options a : Array) :
  Arr.exists_ a "_id" = false ->
  let c := call_insert encodeToBSON drv a options in
  document c = a
  /\ Arr.exists_ (document c) "_id" = false
  /\ (returned c = Return (VBool true)
      \/ exists message, returned c = Throw (MongoCursorException message))
  /\ In Call_bson_oid_init (calls c)
  /\ writes (calls c)
     = [Call_collection_insert MONGOC_INSERT_NONE
          (encodeToBSON (Arr.add a "_id" (MongoId_of (bson_oid_init drv))))
          default_write_concern].
Proof.
  intros Hid. unfold call_insert. cbv zeta. simpl document. simpl returned.
  simpl calls.
  split; [reflexivity|]. split; [exact Hid|].
  rewrite insert_writes. unfold insert_document. rewrite Hid.
  rewrite run_insert. cbv zeta. rewrite Hid. unfold insert_document.
  rewrite Hid.
  destruct (mongoc_collection_insert drv _ _ _) as [[|] msg];
    unfold outcome, trace; simpl.
  - split; [now left|]. split; [right; left; reflexivity | reflexivity].
  - split; [right; now exists msg|].
    split; [right; left; reflexivity | reflexivity].
Qed.

(** X15.  Inserting the same variable twice inserts two documents: the
    first call leaves the caller's document without [_id], so the second
    call generates an object id again, and the two documents that are
    encoded carry the ids of the two calls, which differ when the two
    generated object ids do. *)
Theorem insert_again_new_id (drv1 drv2 : driver)
    (options1 options2 a : Array) :
  Arr.exists_ a "_id" = false ->
  let first := call_insert encodeToBSON drv1 a options1 in
  let second := call_insert encodeToBSON drv2 (document first) options2 in
  In (Call_encodeToBSON "doc"
        (Arr.add a "_id" (MongoId_of (bson_oid_init drv1)))) (calls first)
  /\ In Call_bson_oid_init (calls second)
  /\ In (Call_encodeToBSON "doc"
           (Arr.add a "_id" (MongoId_of (bson_oid_init drv2)))) (calls second)
  /\ (bson_oid_init drv1 <> bson_oid_init drv2 ->
      Arr.add a "_id" (MongoId_of (bson_oid_init drv1))
      <> Arr.add a "_id" (MongoId_of (bson_oid_init drv2))).
Proof.
  intros Hid. unfold call_insert. cbv zeta. simpl document. simpl calls.
  assert (Hcalls : forall drv options,
    In Call_bson_oid_init (trace (run (insert encodeToBSON drv options) a))
    /\ In (Call_encodeToBSON "doc"
             (Arr.add a "_id" (MongoId_of (bson_oid_init drv))))
          (trace (run (insert encodeToBSON drv options) a))).
  { intros drv options. rewrite run_insert. cbv zeta. rewrite Hid.
    unfold insert_document. rewrite Hid.
    destruct (mongoc_collection_insert drv _ _ _) as [[|] msg];
      unfold trace; simpl;
      (split; [right; left; reflexivity | right; right; left; reflexivity]). }
  split; [apply (Hcalls drv1 options1)|].
  split; [apply (Hcalls drv2 options2)|].
  split; [apply (Hcalls drv2 options2)|].
  intros Hoid H. apply Hoid.
  unfold Arr.add in H. apply app_inv_head in H.
  unfold MongoId_of, create_object, Arr.packed1 in H.
  injection H as H.
  destruct (bson_oid_init drv1) as [l1], (bson_oid_init drv2) as [l2].
  unfold bson_oid_to_string in H. simpl in H.
  f_equal. now apply hex_of_bytes_inj.
Qed.

(** X16.  [remove] reads its options only for the truth value of
    [justOne]: two calls whose options agree on it run alike (same result,
    same calls), whatever else the options hold, a [w] entry included, and
    the delete is submitted with the default write concern. *)
Theorem remove_reads_only_justOne (drv : driver)
    (criteria options1 options2 : Array) :
  toBoolean (Arr.rvalAt options1 "justOne")
  = toBoolean (Arr.rvalAt options2 "justOne") ->
  run (remove encodeToBSON drv criteria options1) tt
  = run (remove encodeToBSON drv criteria options2) tt
  /\ exists flag,
       writes (trace (run (remove encodeToBSON drv criteria options1) tt))
       = [Call_collection_delete flag (encodeToBSON criteria)
            (WriteConcern MONGOC_WRITE_CONCERN_W_DEFAULT)].
Proof.
  intros H.
  assert (Hflag : remove_delete_flag options1 = remove_delete_flag options2).
  { rewrite !remove_delete_flag_cases. now rewrite H. }
  split.
  - rewrite !run_remove. cbv zeta. now rewrite Hflag.
  - exists (remove_delete_flag options1). apply remove_writes.
Qed.

(** The one write of [update] carries the flag the options settle. *)
Lemma update_reads_flag (drv : driver)
    (criteria new_object options1 options2 : Array) :
  update_update_flag options1 = update_update_flag options2 ->
  run (update validate encodeToBSON double_toInt64 string_toInt64 drv
         criteria new_object options1) tt
  = run (update validate encodeToBSON double_toInt64 string_toInt64 drv
           criteria new_object options2) tt.
Proof.
  intros H. rewrite !run_update. cbv zeta. now rewrite H.
Qed.

(** X17.  [update] reads its options only for the truth values of
    [multiple] and [upsert]: two calls whose options agree on both run
    alike (same result, same calls), whatever else the options hold, a [w]
    entry included, and the update is submitted with the default write
    concern. *)
Theorem update_reads_only_flags (drv : driver)
    (criteria new_object options1 options2 : Array) :
  toBoolean (Arr.rvalAt options1 "multiple")
  = toBoolean (Arr.rvalAt options2 "multiple") ->
  toBoolean (Arr.rvalAt options1 "upsert")
  = toBoolean (Arr.rvalAt options2 "upsert") ->
  run (update validate encodeToBSON double_toInt64 string_toInt64 drv
         criteria new_object options1) tt
  = run (update validate encodeToBSON double_toInt64 string_toInt64 drv
           criteria new_object options2) tt
  /\ exists flag,
       writes
         (trace (run (update validate encodeToBSON double_toInt64
                        string_toInt64 drv criteria new_object options1) tt))
       = [Call_collection_update flag (encodeToBSON criteria)
            (encodeToBSON new_object)
            (WriteConcern MONGOC_WRITE_CONCERN_W_DEFAULT)].
Proof.
  intros Hmultiple Hupsert. split.
  - apply update_reads_flag. rewrite !update_update_flag_cases.
    now rewrite Hmultiple, Hupsert.
  - exists (update_update_flag options1). apply update_writes.
Qed.

(** X18.  The flag [update] submits, for any options: upsert when [upsert]
    is true; otherwise multi-update when [multiple] is true; otherwise
    none.  Empty options give none, and no options make [update] submit
    multi-update together with upsert. *)
Theorem update_flag_table (drv : driver)
    (criteria new_object options : Array) :
  writes
    (trace (run (update validate encodeToBSON double_toInt64 string_toInt64
                   drv criteria new_object options) tt))
  = [Call_collection_update
       (if toBoolean (Arr.rvalAt options "upsert") then MONGOC_UPDATE_UPSERT
        else if toBoolean (Arr.rvalAt options "multiple")
             then MONGOC_UPDATE_MULTI_UPDATE
             else MONGOC_UPDATE_NONE)
       (encodeToBSON criteria) (encodeToBSON new_object)
       default_write_concern]
  /\ writes
       (trace (run (update validate encodeToBSON double_toInt64
                      string_toInt64 drv criteria new_object []) tt))
     = [Call_collection_update MONGOC_UPDATE_NONE (encodeToBSON criteria)
          (encodeToBSON new_object) default_write_concern].
Proof.
  split.
  - rewrite update_writes. now rewrite update_update_flag_cases.
  - now rewrite update_writes.
Qed.

(** X19.  A reply without [nMatched] is not an error: [update] returns an
    array whose [n] is null and whose [updatedExisting] is false; the same
    holds for [nModified] and [writeErrors], which come out null when the
    reply has none. *)
Theorem update_reply_without_counts (drv : driver)
    (criteria new_object options reply : Array) (message : string) :
  mongoc_collection_update drv (update_update_flag options)
    (encodeToBSON criteria) (encodeToBSON new_object) default_write_concern
  = (true, message) ->
  cbson_loads validate
    (mongoc_collection_get_last_error drv (update_update_flag options)
       (encodeToBSON criteria) (encodeToBSON new_object))
  = Return reply ->
  exists out : Array,
    outcome
      (run (update validate encodeToBSON double_toInt64 string_toInt64 drv
              criteria new_object options) tt)
    = Return (VArray out)
    /\ (Arr.exists_ reply "nMatched" = false ->
        Arr.rvalAt out "n" = VNull
        /\ Arr.rvalAt out "updatedExisting" = VBool false)
    /\ (Arr.exists_ reply "nModified" = false ->
        Arr.rvalAt out "nModified" = VNull)
    /\ (Arr.exists_ reply "writeErrors" = false ->
        Arr.rvalAt out "err" = VNull /\ Arr.rvalAt out "errmsg" = VNull).
Proof.
  intros Hwrite Hreply.
  exists (update_output double_toInt64 string_toInt64 reply).
  destruct (update_output_fields double_toInt64 string_toInt64 reply)
    as (_ & _ & Hmod & Hn & Hupd & Herr & Herrmsg & _).
  split; [rewrite run_update; cbv zeta; now rewrite Hwrite, Hreply|].
  split; [|split]; intros Habsent.
  - rewrite Hn, Hupd. now rewrite (rvalAt_absent _ _ Habsent).
  - rewrite Hmod. now apply rvalAt_absent.
  - rewrite Herr, Herrmsg. split; now apply rvalAt_absent.
Qed.

(** X20.  A write that succeeded can still end in an exception: when the
    iterator over the last error document does not initialise (there is
    none, or it is shorter than five bytes), [update] throws
    [MongoException] "Failed to initialize BSON iterator" after it has
    submitted the update, and returns nothing. *)
Theorem update_reply_unreadable (drv : driver)
    (criteria new_object options : Array) (message : string) :
  mongoc_collection_update drv (update_update_flag options)
    (encodeToBSON criteria) (encodeToBSON new_object) default_write_concern
  = (true, message) ->
  bson_iter_init
    (mongoc_collection_get_last_error drv (update_update_flag options)
       (encodeToBSON criteria) (encodeToBSON new_object))
  = None ->
  let o :=
    run (update validate encodeToBSON double_toInt64 string_toInt64 drv
           criteria new_object options) tt in
  outcome o = Throw (MongoException "Failed to initialize BSON iterator")
  /\ writes (trace o)
     = [Call_collection_update (update_update_flag options)
          (encodeToBSON criteria) (encodeToBSON new_object)
          default_write_concern].
Proof.
  intros Hwrite Hinit. cbv zeta. split; [|apply update_writes].
  rewrite run_update. cbv zeta. rewrite Hwrite.
  unfold cbson_loads. now rewrite Hinit.
Qed.

End MoreMethods.

(** ** The further properties on examples *)

Lemma remove_reads_only_justOne_witness :
  run (remove scalar_encode (failing_driver "") []
         [("w", VInt 0); ("justOne", VInt 1)]) tt
  = run (remove scalar_encode (failing_driver "") []
           [("justOne", VBool true)]) tt.
Proof.
  exact (proj1
           (remove_reads_only_justOne scalar_encode (failing_driver "") []
              [("w", VInt 0); ("justOne", VInt 1)] [("justOne", VBool true)]
              eq_refl)).
Defined.

Lemma update_reads_only_flags_witness :
  run (update seven_bit_validate scalar_encode (fun _ => 0) (fun _ => 0)
         (succeeding_driver (Oid []) (Some reply_2_1)) [] []
         [("w", VInt 1); ("upsert", VString "yes")]) tt
  = run (update seven_bit_validate scalar_encode (fun _ => 0) (fun _ => 0)
           (succeeding_driver (Oid []) (Some reply_2_1)) [] []
           [("upsert", VBool true)]) tt.
Proof.
  exact (proj1
           (update_reads_only_flags seven_bit_validate scalar_encode
              (fun _ => 0) (fun _ => 0)
              (succeeding_driver (Oid []) (Some reply_2_1)) [] []
              [("w", VInt 1); ("upsert", VString "yes")]
              [("upsert", VBool true)] eq_refl eq_refl)).
Defined.

Lemma update_reply_without_counts_witness :
  exists out : Array,
    outcome
      (run (update seven_bit_validate scalar_encode (fun _ => 0) (fun _ => 0)
              (succeeding_driver (Oid []) (Some (Bson 5 IterEnd))) [] [] [])
         tt)
    = Return (VArray out)
    /\ Arr.rvalAt out "n" = VNull
    /\ Arr.rvalAt out "updatedExisting" = VBool false.
Proof.
  destruct
    (update_reply_without_counts seven_bit_validate scalar_encode
       (fun _ => 0) (fun _ => 0)
       (succeeding_driver (Oid []) (Some (Bson 5 IterEnd))) [] [] [] [] ""
       eq_refl eq_refl)
    as (out & Hout & Hn & _).
  exists out. split; [exact Hout|]. exact (Hn eq_refl).
Defined.

Lemma update_reply_unreadable_witness :
  outcome
    (run (update seven_bit_validate scalar_encode (fun _ => 0) (fun _ => 0)
            (succeeding_driver (Oid []) None) [] [] []) tt)
  = Throw (MongoException "Failed to initialize BSON iterator").
Proof.
  exact (proj1
           (update_reply_unreadable seven_bit_validate scalar_encode
              (fun _ => 0) (fun _ => 0) (succeeding_driver (Oid []) None)
              [] [] [] "" eq_refl eq_refl)).
Defined.

Lemma insert_id_not_observable_witness :
  document
    (call_insert scalar_encode
       (succeeding_driver (Oid [ascii_of_nat 84; ascii_of_nat 171]) None)
       [("x", VInt 1)] [])
  = [("x", VInt 1)]
  /\ returned
       (call_insert scalar_encode
          (succeeding_driver (Oid [ascii_of_nat 84; ascii_of_nat 171]) None)
          [("x", VInt 1)] [])
     = Return (VBool true)
  /\ writes
       (calls
          (call_insert scalar_encode
             (succeeding_driver (Oid [ascii_of_nat 84; ascii_of_nat 171])
                None)
             [("x", VInt 1)] []))
     = [Call_collection_insert MONGOC_INSERT_NONE
          (scalar_encode
             [("x", VInt 1);
              ("_id", VObject "MongoId" [("0", VString "54ab")])])
          default_write_concern].
Proof.
  destruct
    (insert_id_not_observable scalar_encode
       (succeeding_driver (Oid [ascii_of_nat 84; ascii_of_nat 171]) None)
       [] [("x", VInt 1)] eq_refl)
    as (Hdoc & _ & _ & _ & Hwrites).
  split; [exact Hdoc|]. split; [reflexivity | exact Hwrites].
Defined.

Lemma insert_again_new_id_witness :
  In Call_bson_oid_init
    (calls
       (call_insert scalar_encode
          (succeeding_driver (Oid [ascii_of_nat 2]) None)
          (document
             (call_insert scalar_encode
                (succeeding_driver (Oid [ascii_of_nat 1]) None)
                [("x", VInt 1)] []))
          [])).
Proof.
  exact (proj1 (proj2
           (insert_again_new_id scalar_encode
              (succeeding_driver (Oid [ascii_of_nat 1]) None)
              (succeeding_driver (Oid [ascii_of_nat 2]) None)
              [] [] [("x", VInt 1)] eq_refl))).
Defined.
